(* ===== verification/_CoqProject ===== *)
-Q . S2P
Prelude.v
Calendar.v
Weather.v
Merge.v
OneHot.v
Features.v
Evaluate.v
Queries.v
Sinks.v
Pipeline.v
