(* ===== verification/Prelude.v ===== *)
(** * A verification development of the rainware_analysis ETL pipeline

    The repository is one batch job, [src/etl.py] (its [__main__] block),
    and two helpers in [src/utils/toolbox.py] ([get_data] and
    [preprocessing]).  The job
      1. creates the two database engines (local PostgreSQL, Supabase),
      2. reads [data/sales.csv],
      3. fetches a daily weather series from the Open-Meteo API
         ([toolbox.get_data]) and turns it into a frame with the daily mean
         temperature rounded to one decimal,
      4. normalises the weather dates through [strftime("%m/%d/%Y")] and
         [to_datetime], left-joins sales with weather on the date,
      5. builds the feature matrix ([toolbox.preprocessing]: calendar
         features, one-hot encoding of [category], fixed column order),
      6. loads two pre-trained predictors, scores both by mean absolute
         error, keeps the predictions of the one with strictly lower MAE,
      7. reads [utils/queries.sql], keeps its first statement (the
         CREATE TABLE), runs it on both databases, appends the scored rows
         to both, and reads a row count back from both.

    Files (in dependency order, each requiring only earlier ones):
    - [Prelude]   this header; the Python exceptions the code can raise
                  ([py_exn]); the result type [res] with its bind [let*],
                  and the state-and-exception monad [st] with [let!] and
                  [st_try] (a [try/except Exception] that keeps the state
                  the failing block left); [str.split]/[str.join] on one
                  separator with their round trips; the hint databases
                  [etl] and [etl_rw] and the tactics [zlia], [res_inv].
    - [Calendar]  (Module [Timestamp]) the proleptic Gregorian calendar of
                  pandas timestamps: validity, [dt.dayofweek] (Monday = 0),
                  [dt.month], [dt.dayofyear], the epoch-day count,
                  [strftime("%m/%d/%Y")] and the two parsers [to_datetime]
                  applies ("%m/%d/%Y" and ISO), with pandas' nanosecond
                  bounds 1677-09-22 .. 2262-04-11.
    - [Weather]   (Module [OpenMeteo]) toolbox.py 5-31 [get_data] (JSON
                  response -> daily dict, or the error dict on a
                  [RequestException]) and etl.py 69-90: the weather frame
                  (the lookups in dict order, the equal-length check of
                  [pd.DataFrame], the mean temperature rounded half-to-even
                  to one decimal, NaN propagation) and the date
                  normalisation.
    - [Merge]     (Module [LeftJoin]) etl.py 93, [pd.merge(how="left")].
    - [OneHot]    (Module [Encoder]) [OneHotEncoder(handle_unknown=
                  "ignore")] as toolbox.py 41-44 uses it.
    - [Features]  (Module [Preprocessing]) toolbox.py 33-50 and the target
                  column of etl.py 96-97.
    - [Evaluate]  (Module [ModelSelection]) etl.py 99-124: the two
                  predictors, [mean_absolute_error], the selection
                  [mae_xgb < mae_lr] and the column assignment.
    - [Queries]   (Module [SqlScript]) etl.py 126-133: the split of
                  queries.sql on ";", [strip], and [queries[0]].
    - [Sinks]     (Module [Persistence]) the interface [Sink] the pipeline
                  needs of a database (DDL, [to_sql(if_exists="append")],
                  the row count query), its laws [SinkLaws], and the
                  in-memory [database] that implements both.
    - [Pipeline]  (Module [Etl]) the whole [__main__] block: [prepare_batch]
                  (etl.py 59-133, every read and computation before the
                  first write) and, in Section [Run] over any [Sink],
                  [etl_main] (etl.py 12-171) in the monad [st] over the two
                  databases, with the [try/except] blocks of etl.py 137-171.

    Groups of theorems (the claim ids C<n> name them in their comments):
    - selection: the predictions kept are those of the strictly better
      model (ties go to the linear model), the kept MAE is [min] of the
      two, and the error cases of [mean_absolute_error];
    - data shape: with unique weather dates the left join gives each sales
      row the temperature of its date's weather row, or NaN, and for any
      weather frame keeps every sales row in order; the feature matrix has
      the fixed leading columns, one row per merged row, one-hot rows, and
      calendar cells in range; the encoder's categories are
      [sorted(set(values))]; an empty batch raises [ValueError];
    - calendar: [dt.dayofyear] and [dt.dayofweek] advance with the next
      calendar day (across month ends, leap days and year ends), and the
      strftime/parse round trip holds for every date pandas can hold;
    - weather: row [i] of the frame is read from entry [i] of the three
      arrays of the Open-Meteo dictionary, the rounded mean lies between
      min and max, and the normalisation is the identity on parsed dates;
    - pipeline: runs that fail before etl.py 135 leave both databases
      unchanged (a missing model, a failed weather request in particular),
      a successful run creates the table and appends the batch on both,
      the batch is the scored left join, and the order of the local and
      backup writes when one of them fails;
    - the scenario of the spec evaluated end to end (two examples, backing
      the findings on the spec's figures).

    Modelling choices.  Python floats are modelled as exact rationals [Q]:
    the theorems speak of the real-number semantics the code means, not of
    IEEE rounding.  A NaN cell is [None] in an [option Q] column.  Python
    exceptions are the values of [py_exn]; a function that can raise
    returns [res], and a block under [try/except] runs in [st].  Calendar
    integers are unbounded [Z]; the nanosecond bounds keep years to four
    digits, which makes the round trip unconditional for every date the
    parsers accept.  [str.strip] is modelled on the ASCII whitespace it
    removes.  No fuel is needed: every definition is structural.

    Not modelled: logging; reading the credentials from the environment
    and building the engine URLs (only whether [create_engine] succeeded
    is kept); CSV parsing (the sales frame is given as records); the
    internals of the two pre-trained models, which are arbitrary
    [predictor]s; the database server, replaced by the [Sink] interface. *)

From Stdlib Require Export ZArith QArith String Ascii Lia.
From stdpp Require Export base list sets.

Declare Scope etl_scope.
Delimit Scope etl_scope with etl.
Open Scope etl_scope.

(** ** Python exceptions raised by the modelled code *)

Inductive py_exn : Type :=
| KeyError (key : string)
| ValueError (msg : string)
| TypeError (msg : string)
| IndexError (msg : string)
| FileNotFoundError (path : string)
| NameError (name : string)
| OperationalError (msg : string).

(** A computation that returns a value or raises. *)
Inductive res (A : Type) : Type :=
| Ok (a : A)
| Err (e : py_exn).
Arguments Ok {A} a.
Arguments Err {A} e.

(** String concatenation (list [++] stays the list append). *)
Notation "s +++ t" := (String.append s t)
  (at level 60, right associativity) : etl_scope.

Definition res_bind {A B} (c : res A) (k : A -> res B) : res B :=
  match c with
  | Ok a => k a
  | Err e => Err e
  end.

Notation "'let*' x ':=' c 'in' k" := (res_bind c (fun x => k))
  (at level 10, x name, c at level 100, k at level 200) : etl_scope.

(** [[f(x) for x in xs]] where [f] can raise: the first exception wins. *)
Fixpoint res_map {A B} (f : A -> res B) (l : list A) : res (list B) :=
  match l with
  | [] => Ok []
  | x :: xs => let* y := f x in let* ys := res_map f xs in Ok (y :: ys)
  end.

Definition of_option {A} (e : py_exn) (o : option A) : res A :=
  match o with Some a => Ok a | None => Err e end.

(** Two results that agree up to [R] on their values and are equal as
    exceptions. *)
Definition res_equiv {A} (R : relation A) : relation (res A) :=
  fun r1 r2 => match r1, r2 with
               | Ok a, Ok b => R a b
               | Err e1, Err e2 => e1 = e2
               | _, _ => False
               end.

(** ** State and exceptions: a statement of the script run on a state [W]

    The result is the value or the exception, together with the state at
    the point the statement returned or raised: what was written before an
    exception stays written. *)

Definition st (W A : Type) : Type := W -> res A * W.

Definition st_ret {W A} (a : A) : st W A := fun w => (Ok a, w).

Definition st_bind {W A B} (c : st W A) (k : A -> st W B) : st W B :=
  fun w => match c w with
           | (Ok a, w') => k a w'
           | (Err e, w') => (Err e, w')
           end.

(** A computation that does not touch the state. *)
Definition st_lift {W A} (r : res A) : st W A := fun w => (r, w).

(** [try: c except Exception: logging.error(...)]: the exception is
    swallowed, what [c] did before raising is kept. *)
Definition st_try {W} (c : st W unit) : st W unit :=
  fun w => (Ok tt, snd (c w)).

Notation "'let!' x ':=' c 'in' k" := (st_bind c (fun x => k))
  (at level 10, x name, c at level 100, k at level 200) : etl_scope.

Lemma st_bind_Ok {W A B} (c : st W A) (k : A -> st W B) w b w'' :
  st_bind c k w = (Ok b, w'') <-> exists a w', c w = (Ok a, w') /\ k a w' = (Ok b, w'').
Proof.
  unfold st_bind. destruct (c w) as [[a|e] w']; split.
  - eauto.
  - intros (a' & w1 & H & Hk). injection H as -> ->. exact Hk.
  - discriminate.
  - intros (a' & w1 & H & _). discriminate.
Qed.

(** ** Python [str.split(sep)] and [sep.join] on a one-character separator *)

Fixpoint split_on (c : ascii) (s : string) : list string :=
  match s with
  | EmptyString => [EmptyString]
  | String a s' =>
      let rest := split_on c s' in
      if ascii_dec a c then EmptyString :: rest
      else match rest with
           | [] => [String a EmptyString]
           | r :: rs => String a r :: rs
           end
  end.

Fixpoint join_on (c : ascii) (l : list string) : string :=
  match l with
  | [] => EmptyString
  | [x] => x
  | x :: xs => x +++ String c (join_on c xs)
  end.

(** [c in s] *)
Fixpoint has_char (c : ascii) (s : string) : bool :=
  match s with
  | EmptyString => false
  | String a s' => if ascii_dec a c then true else has_char c s'
  end.

(** ** Automation *)

Create HintDb etl.
Create Rewrite HintDb etl_rw.

Ltac invc H := inversion H; subst; clear H.

(** [lia] after naming the quotients and remainders of [/] and [mod]. *)
Ltac zlia := Z.div_mod_to_equations; lia.

(** Split a hypothesis [let* x := c in k = Ok v] into its two steps. *)
Lemma res_bind_Ok {A B} (c : res A) (k : A -> res B) (b : B) :
  res_bind c k = Ok b <-> exists a, c = Ok a /\ k a = Ok b.
Proof.
  destruct c as [a|e]; simpl; split.
  - eauto.
  - intros (a' & Ha & Hk). congruence.
  - discriminate.
  - intros (a' & Ha & _). discriminate.
Qed.

Lemma res_bind_Err {A B} (c : res A) (k : A -> res B) (e : py_exn) :
  c = Err e -> res_bind c k = Err e.
Proof. intros ->. reflexivity. Qed.

Ltac res_inv :=
  repeat match goal with
  | H : res_bind _ _ = Ok _ |- _ =>
      apply res_bind_Ok in H; destruct H as (? & ? & H)
  | H : Ok _ = Ok _ |- _ => injection H as H; subst
  | H : Err _ = Ok _ |- _ => discriminate H
  | H : Ok _ = Err _ |- _ => discriminate H
  end.

Lemma res_map_length {A B} (f : A -> res B) (l : list A) (l' : list B) :
  res_map f l = Ok l' -> length l' = length l.
Proof.
  revert l'. induction l as [|x xs IH]; simpl; intros l' H.
  - by injection H as <-.
  - res_inv. simpl. f_equal. by apply IH.
Qed.

Lemma res_map_Forall2 {A B} (f : A -> res B) (l : list A) (l' : list B) :
  res_map f l = Ok l' -> Forall2 (fun x y => f x = Ok y) l l'.
Proof.
  revert l'. induction l as [|x xs IH]; simpl; intros l' H.
  - injection H as <-. constructor.
  - res_inv. constructor; auto.
Qed.

(** The [i]-th output of a successful [res_map] is [f] of the [i]-th input. *)
Lemma res_map_lookup {A B} (f : A -> res B) (l : list A) (l' : list B) i y :
  res_map f l = Ok l' -> l' !! i = Some y -> exists x, l !! i = Some x /\ f x = Ok y.
Proof.
  intros H%res_map_Forall2 Hi. destruct (Forall2_lookup_r _ _ _ _ _ H Hi) as (x & Hx & Hf). eauto.
Qed.

(** In an association list with duplicate-free keys a key has one value. *)
Lemma NoDup_fst_unique {K V} (l : list (K * V)) k v v' :
  NoDup (map fst l) -> (k, v) ∈ l -> (k, v') ∈ l -> v = v'.
Proof.
  induction l as [|[k0 v0] l IH]; intros Hnd Hv Hv'; [set_solver|].
  simpl in Hnd. apply NoDup_cons in Hnd as [Hn Hnd].
  assert (Hk : forall w, (k, w) ∈ l -> k ∈ map fst l).
  { intros w Hw. apply list_elem_of_In, in_map_iff. exists (k, w). split; [done|by apply list_elem_of_In]. }
  apply elem_of_cons in Hv as [[= -> ->]|Hv], Hv' as [[= ->]|Hv']; [done| | |by apply IH];
    exfalso; apply Hn; eauto.
Qed.

Lemma Forall2_Forall_l_and {A B} (P : A -> B -> Prop) (V : A -> Prop) l k :
  Forall2 P l k -> Forall V l -> Forall2 (fun x y => V x /\ P x y) l k.
Proof. induction 1; inversion 1; subst; constructor; auto. Qed.

(** ** Strings *)

Lemma string_length_app s t : String.length (s +++ t) = (String.length s + String.length t)%nat.
Proof. induction s as [|a s IH]; simpl; [reflexivity|by rewrite IH]. Qed.

(** ** Split and join *)

Lemma split_on_not_nil c s : split_on c s <> [].
Proof.
  destruct s as [|a s]; simpl; [discriminate|].
  destruct (ascii_dec a c); [discriminate|].
  destruct (split_on c s); discriminate.
Qed.

(** Joining the pieces of a split gives the string back. *)
Lemma join_split c s : join_on c (split_on c s) = s.
Proof.
  induction s as [|a s IH]; simpl; [reflexivity|].
  pose proof (split_on_not_nil c s) as Hne.
  destruct (ascii_dec a c) as [->|Hac].
  - destruct (split_on c s) as [|r rs]; [congruence|].
    simpl. by rewrite <- IH.
  - destruct (split_on c s) as [|r [|r' rs]]; [congruence| |]; simpl in *.
    + by rewrite IH.
    + by rewrite <- IH.
Qed.

Lemma split_on_app_sep c x rest :
  has_char c x = false ->
  split_on c (x +++ String c rest) = x :: split_on c rest.
Proof.
  induction x as [|a x IH]; simpl; intros Hx.
  - destruct (ascii_dec c c); [reflexivity|congruence].
  - destruct (ascii_dec a c); [discriminate|]. by rewrite IH.
Qed.

Lemma split_on_no_sep c x :
  has_char c x = false -> split_on c x = [x].
Proof.
  induction x as [|a x IH]; simpl; intros Hx; [reflexivity|].
  destruct (ascii_dec a c); [discriminate|]. by rewrite IH.
Qed.

(** Splitting a join of separator-free pieces gives the pieces back. *)
Lemma split_join c l :
  l <> [] -> Forall (fun x => has_char c x = false) l ->
  split_on c (join_on c l) = l.
Proof.
  induction l as [|x [|y l] IH]; intros Hne Hall; [congruence| |].
  - invc Hall. simpl. by apply split_on_no_sep.
  - invc Hall. change (join_on c (x :: y :: l)) with (x +++ String c (join_on c (y :: l))).
    rewrite split_on_app_sep by assumption. f_equal. apply IH; [discriminate|assumption].
Qed.

(** No piece of a split contains the separator. *)
Lemma split_on_no_sep_pieces c s :
  Forall (fun x => has_char c x = false) (split_on c s).
Proof.
  induction s as [|a s IH]; simpl; [by repeat constructor|].
  destruct (ascii_dec a c) as [->|Hac].
  - by constructor.
  - destruct (split_on c s) as [|r rs] eqn:E; [by apply split_on_not_nil in E|].
    invc IH. constructor; [|assumption]. simpl.
    destruct (ascii_dec a c); [congruence|assumption].
Qed.

#[export] Hint Resolve split_on_not_nil split_on_no_sep_pieces : etl.
#[export] Hint Rewrite join_split : etl_rw.
