(* ===== verification/Calendar.v ===== *)
(** * Calendar: the pandas timestamp operations the pipeline uses

    [toolbox.preprocessing] (src/utils/toolbox.py 36-39) derives
    [dt.dayofweek], [dt.month] and [dt.dayofyear] from the sales date, and
    [etl.py] (73, 85-90) parses the Open-Meteo dates, formats them with
    [strftime("%m/%d/%Y")] and parses them again.  Timestamps here are
    calendar days of the proleptic Gregorian calendar ([date]); the
    time-of-day is always midnight in the modelled code and is left out. *)

From S2P Require Import Prelude.

Module Timestamp.

Local Open Scope Z_scope.

Record date := mkDate { year : Z; month : Z; day : Z }.

#[export] Instance date_eq_dec : EqDecision date.
Proof. solve_decision. Defined.

Definition is_leap (y : Z) : bool :=
  (Z.eqb (y mod 4) 0 && negb (Z.eqb (y mod 100) 0)) || Z.eqb (y mod 400) 0.

Definition month_lengths (y : Z) : list Z :=
  [31; if is_leap y then 29 else 28; 31; 30; 31; 30; 31; 31; 30; 31; 30; 31].

Definition zsum (l : list Z) : Z := foldr Z.add 0 l.

Definition days_in_month (y m : Z) : Z :=
  if (1 <=? m) && (m <=? 12) then nth (Z.to_nat (m - 1)) (month_lengths y) 0 else 0.

Definition year_length (y : Z) : Z := if is_leap y then 366 else 365.

(** A timestamp pandas accepts: month in 1..12, day within the month. *)
Definition valid_date (d : date) : bool :=
  (1 <=? month d) && (month d <=? 12) &&
  (1 <=? day d) && (day d <=? days_in_month (year d) (month d)).

(** [dt.month] *)
Definition month_of (d : date) : Z := month d.

(** [dt.dayofyear]: days of the earlier months plus the day. *)
Definition days_before_month (y m : Z) : Z :=
  zsum (take (Z.to_nat (m - 1)) (month_lengths y)).

Definition day_of_year (d : date) : Z := days_before_month (year d) (month d) + day d.

(** Leap years strictly before [y], counted from year 1 (floor division
    extends the count to every integer year). *)
Definition leaps_before (y : Z) : Z := (y - 1) / 4 - (y - 1) / 100 + (y - 1) / 400.

Definition days_before_year (y : Z) : Z :=
  365 * (y - 1970) + (leaps_before y - leaps_before 1970).

(** Days since 1970-01-01, the epoch of pandas timestamps. *)
Definition epoch_day (d : date) : Z := days_before_year (year d) + day_of_year d - 1.

(** [dt.dayofweek]: Monday = 0 ... Sunday = 6; 1970-01-01 was a Thursday. *)
Definition day_of_week (d : date) : Z := (epoch_day d + 3) mod 7.

(** The following calendar day. *)
Definition next_day (d : date) : date :=
  if day d <? days_in_month (year d) (month d) then mkDate (year d) (month d) (day d + 1)
  else if month d <? 12 then mkDate (year d) (month d + 1) 1
  else mkDate (year d + 1) 1 1.

(** ** Date strings *)

(** The ASCII digit of [n] (0 <= n <= 9). *)
Definition digit (n : Z) : ascii := ascii_of_nat (48 + Z.to_nat n).

Definition char_digit (a : ascii) : option Z :=
  let k := nat_of_ascii a in
  if (48 <=? k)%nat && (k <=? 57)%nat then Some (Z.of_nat k - 48) else None.

(** [n] written with exactly [w] digits, zero-padded on the left
    ([%m], [%d]: 2 digits; [%Y]: 4 digits for the years pandas handles). *)
Fixpoint pad (w : nat) (n : Z) : string :=
  match w with
  | O => EmptyString
  | S w' => pad w' (n / 10) +++ String (digit (n mod 10)) EmptyString
  end.

(** Decimal value of a string of digits, read left to right after [acc]. *)
Fixpoint digits_val (acc : Z) (s : string) : option Z :=
  match s with
  | EmptyString => Some acc
  | String a s' =>
      match char_digit a with
      | Some k => digits_val (acc * 10 + k) s'
      | None => None
      end
  end.

(** A numeric field of [lo] to [hi] digits, as strptime's [%m], [%d]
    (1 or 2 digits) and [%Y] (4 digits) accept. *)
Definition parse_field (lo hi : nat) (s : string) : option Z :=
  if (lo <=? String.length s)%nat && (String.length s <=? hi)%nat then digits_val 0 s
  else None.

(** [Timestamp.strftime("%m/%d/%Y")] (etl.py 89). *)
Definition strftime_mdy (d : date) : string :=
  join_on "/"%char [pad 2 (month d); pad 2 (day d); pad 4 (year d)].

(** Year, month and day as one number, ordered as the dates are. *)
Definition date_key (d : date) : Z := year d * 10000 + month d * 100 + day d.

(** A midnight timestamp pandas can hold at nanosecond resolution lies
    between 1677-09-22 and 2262-04-11 ([Timestamp.min], [Timestamp.max]). *)
Definition in_ns_bounds (d : date) : bool :=
  (16770922 <=? date_key d) && (date_key d <=? 22620411).

(** The checks [to_datetime] makes on the fields it parsed: an impossible
    day raises [ValueError], a date outside the nanosecond range raises
    [OutOfBoundsDatetime] (a subclass of [ValueError]). *)
Definition check_date (d : date) : res date :=
  if valid_date d then
    if in_ns_bounds d then Ok d else Err (ValueError "Out of bounds nanosecond timestamp")
  else Err (ValueError "day is out of range for month").

(** [pd.to_datetime] of a "%m/%d/%Y" string (etl.py 90). *)
Definition parse_mdy (s : string) : res date :=
  match split_on "/"%char s with
  | [ms; ds; ys] =>
      match parse_field 1 2 ms, parse_field 1 2 ds, parse_field 4 4 ys with
      | Some m, Some dd, Some y => check_date (mkDate y m dd)
      | _, _, _ => Err (ValueError "time data does not match format %m/%d/%Y")
      end
  | _ => Err (ValueError "time data does not match format %m/%d/%Y")
  end.

(** [pd.to_datetime] of an ISO "YYYY-MM-DD" string, the format of the
    Open-Meteo [daily.time] array (etl.py 73). *)
Definition parse_iso (s : string) : res date :=
  match split_on "-"%char s with
  | [ys; ms; ds] =>
      match parse_field 4 4 ys, parse_field 2 2 ms, parse_field 2 2 ds with
      | Some y, Some m, Some dd => check_date (mkDate y m dd)
      | _, _, _ => Err (ValueError "time data does not match format ISO8601")
      end
  | _ => Err (ValueError "time data does not match format ISO8601")
  end.

(** etl.py 89-90: format through "%m/%d/%Y" and parse again. *)
Definition normalize_date (d : date) : res date := parse_mdy (strftime_mdy d).

(** ** Lemmas on the calendar arithmetic *)

Lemma valid_date_spec d :
  valid_date d = true <->
  1 <= month d <= 12 /\ 1 <= day d <= days_in_month (year d) (month d).
Proof.
  unfold valid_date. rewrite !andb_true_iff, !Z.leb_le. tauto.
Qed.

(** Reduce a statement about a month [m] in 1..12 to the twelve concrete
    months, with the leap-year test of the year split. *)
Ltac by_month m y :=
  let H := fresh in
  assert (H : m = 1 \/ m = 2 \/ m = 3 \/ m = 4 \/ m = 5 \/ m = 6 \/ m = 7 \/
              m = 8 \/ m = 9 \/ m = 10 \/ m = 11 \/ m = 12) by lia;
  repeat destruct H as [H|H]; subst m;
  unfold days_in_month, days_before_month, year_length, month_lengths in *;
  destruct (is_leap y); simpl in *; lia.

Lemma days_in_month_bounds y m :
  1 <= m <= 12 -> 28 <= days_in_month y m <= 31.
Proof. intros Hm. by_month m y. Qed.

(** The days of month [m] and of the months before it fit in the year. *)
Lemma days_before_month_bound y m :
  1 <= m <= 12 -> 0 <= days_before_month y m /\
  days_before_month y m + days_in_month y m <= year_length y.
Proof. intros Hm. by_month m y. Qed.

Lemma days_before_month_succ y m :
  1 <= m < 12 -> days_before_month y (m + 1) = days_before_month y m + days_in_month y m.
Proof. intros Hm. by_month m y. Qed.

Lemma days_before_december y :
  days_before_month y 12 + days_in_month y 12 = year_length y.
Proof. unfold days_before_month, days_in_month, year_length, month_lengths.
  destruct (is_leap y); reflexivity. Qed.

Lemma is_leap_spec y :
  is_leap y = true <-> (y mod 4 = 0 /\ y mod 100 <> 0) \/ y mod 400 = 0.
Proof.
  unfold is_leap. rewrite orb_true_iff, andb_true_iff, negb_true_iff, !Z.eqb_eq, Z.eqb_neq.
  tauto.
Qed.

Lemma leaps_before_succ y :
  leaps_before (y + 1) = leaps_before y + (if is_leap y then 1 else 0).
Proof.
  unfold leaps_before. replace (y + 1 - 1) with y by lia.
  destruct (is_leap y) eqn:E.
  - apply is_leap_spec in E. destruct E as [[E1 E2]|E3].
    + assert (y mod 400 <> 0) by (intro; apply E2; zlia). zlia.
    + zlia.
  - assert (~ ((y mod 4 = 0 /\ y mod 100 <> 0) \/ y mod 400 = 0)) as Hn.
    { intros H%is_leap_spec. congruence. }
    zlia.
Qed.

Lemma days_before_year_succ y :
  days_before_year (y + 1) = days_before_year y + year_length y.
Proof.
  unfold days_before_year, year_length. rewrite leaps_before_succ.
  destruct (is_leap y); lia.
Qed.

#[export] Hint Resolve days_in_month_bounds days_before_month_bound : etl.
#[export] Hint Rewrite days_before_month_succ days_before_year_succ : etl_rw.

(** The epoch-day count advances by exactly one from a valid day to the
    next one, across month and year ends. *)
Lemma epoch_day_next_day d :
  valid_date d = true -> epoch_day (next_day d) = epoch_day d + 1.
Proof.
  intros (Hm & Hd)%valid_date_spec. destruct d as [y m dd]; simpl in *.
  unfold next_day, epoch_day, day_of_year; simpl.
  destruct (Z.ltb_spec dd (days_in_month y m)); simpl; [lia|].
  destruct (Z.ltb_spec m 12); simpl.
  - rewrite days_before_month_succ by lia. lia.
  - assert (m = 12) by lia. subst m.
    rewrite days_before_year_succ. pose proof (days_before_december y).
    unfold days_before_month at 1; simpl. lia.
Qed.

Lemma next_day_valid d : valid_date d = true -> valid_date (next_day d) = true.
Proof.
  intros (Hm & Hd)%valid_date_spec. destruct d as [y m dd]; simpl in *.
  unfold next_day; simpl. apply valid_date_spec; simpl.
  destruct (Z.ltb_spec dd (days_in_month y m)); simpl; [lia|].
  destruct (Z.ltb_spec m 12); simpl.
  - pose proof (days_in_month_bounds y (m + 1)). lia.
  - pose proof (days_in_month_bounds (y + 1) 1). lia.
Qed.

(** ** Lemmas on digits and padded fields *)

Lemma digit_code n : 0 <= n < 10 -> (48 <= nat_of_ascii (digit n) <= 57)%nat.
Proof.
  intros Hn. unfold digit. rewrite nat_ascii_embedding by lia. lia.
Qed.

Lemma char_digit_digit n : 0 <= n < 10 -> char_digit (digit n) = Some n.
Proof.
  intros Hn. unfold char_digit, digit. rewrite nat_ascii_embedding by lia.
  destruct (Nat.leb_spec 48 (48 + Z.to_nat n)); [|lia].
  destruct (Nat.leb_spec (48 + Z.to_nat n) 57); [|lia].
  simpl. f_equal. lia.
Qed.

Lemma digits_val_app acc s t :
  digits_val acc (s +++ t) =
  match digits_val acc s with Some a => digits_val a t | None => None end.
Proof.
  revert acc. induction s as [|a s IH]; intros acc; simpl; [reflexivity|].
  destruct (char_digit a); [apply IH|reflexivity].
Qed.

Lemma has_char_app c s t : has_char c (s +++ t) = has_char c s || has_char c t.
Proof.
  induction s as [|a s IH]; simpl; [reflexivity|].
  destruct (ascii_dec a c); [reflexivity|apply IH].
Qed.

Lemma length_pad w n : String.length (pad w n) = w.
Proof.
  revert n. induction w as [|w IH]; intros n; simpl; [reflexivity|].
  rewrite string_length_app, IH. simpl. lia.
Qed.

(** A padded number never contains a character below '0' (such as '/'
    or '-'). *)
Lemma has_char_pad c w n : (nat_of_ascii c < 48)%nat -> has_char c (pad w n) = false.
Proof.
  intros Hc. revert n. induction w as [|w IH]; intros n; cbn [pad]; [reflexivity|].
  rewrite has_char_app, IH.
  assert (Hd : (48 <= nat_of_ascii (digit (n mod 10)) <= 57)%nat) by (apply digit_code; zlia).
  cbn [has_char orb].
  destruct (ascii_dec (digit (n mod 10)) c) as [E|]; [rewrite E in Hd; lia|reflexivity].
Qed.

(** Reading a [w]-digit padding of [n] back gives [n]. *)
Lemma digits_val_pad w n acc :
  0 <= n < 10 ^ Z.of_nat w -> digits_val acc (pad w n) = Some (acc * 10 ^ Z.of_nat w + n).
Proof.
  revert n acc. induction w as [|w IH]; intros n acc Hn; cbn [pad].
  - cbn [digits_val]. f_equal. simpl in Hn. lia.
  - rewrite digits_val_app, IH.
    2:{ rewrite Nat2Z.inj_succ, Z.pow_succ_r in Hn by lia. zlia. }
    cbn [digits_val]. rewrite char_digit_digit by zlia.
    f_equal. rewrite Nat2Z.inj_succ, Z.pow_succ_r by lia.
    pose proof (Z.div_mod n 10 ltac:(lia)). lia.
Qed.

Lemma parse_field_pad lo hi w n :
  (lo <= w <= hi)%nat -> 0 <= n < 10 ^ Z.of_nat w -> parse_field lo hi (pad w n) = Some n.
Proof.
  intros Hw Hn. unfold parse_field. rewrite length_pad.
  destruct (Nat.leb_spec lo w); [|lia]. destruct (Nat.leb_spec w hi); [|lia].
  cbn [andb]. rewrite digits_val_pad by assumption. reflexivity.
Qed.

#[export] Hint Rewrite length_pad digits_val_app has_char_app : etl_rw.

(** ** Properties of the calendar features and of the date normalisation *)

Lemma day_of_week_range d : 0 <= day_of_week d <= 6.
Proof. unfold day_of_week. zlia. Qed.

Lemma day_of_year_range d :
  valid_date d = true -> 1 <= day_of_year d <= year_length (year d) /\ year_length (year d) <= 366.
Proof.
  intros (Hm & Hd)%valid_date_spec.
  pose proof (days_before_month_bound (year d) (month d) Hm).
  unfold day_of_year, year_length in *. destruct (is_leap (year d)); lia.
Qed.

#[export] Hint Resolve day_of_week_range day_of_year_range : etl.

(** C5: [dt.dayofyear] counts the days of the year: the day after a valid
    day has the next day of the year, except after December 31, whose next
    day is day 1 of the following year; so [dayofyear] is the position of
    the day in its year, across month ends and February 29. *)
Theorem day_of_year_next_day d :
  valid_date d = true ->
  day_of_year (next_day d) = if (month d =? 12) && (day d =? 31) then 1 else day_of_year d + 1.
Proof.
  intros (Hm & Hd)%valid_date_spec. destruct d as [y m dd]; simpl in *.
  assert (H12 : days_in_month y 12 = 31) by (unfold days_in_month; reflexivity).
  unfold next_day, day_of_year; simpl.
  destruct (Z.ltb_spec dd (days_in_month y m)); simpl.
  - destruct (Z.eqb_spec m 12); destruct (Z.eqb_spec dd 31); simpl; subst; lia.
  - destruct (Z.ltb_spec m 12); simpl.
    + rewrite days_before_month_succ by lia. destruct (Z.eqb_spec m 12); simpl; [lia|]. lia.
    + assert (m = 12) by lia. subst m. rewrite Z.eqb_refl. replace dd with 31 by lia. reflexivity.
Qed.

Lemma day_of_year_next_day_witness :
  valid_date (mkDate 2024 2 29) = true /\
  day_of_year (next_day (mkDate 2024 2 29)) =
    if (month (mkDate 2024 2 29) =? 12) && (day (mkDate 2024 2 29) =? 31) then 1
    else day_of_year (mkDate 2024 2 29) + 1.
Proof. split; [reflexivity|]. apply (day_of_year_next_day (mkDate 2024 2 29)). reflexivity. Defined.

(** C22: [dt.dayofweek] of the next calendar day is the weekday after
    [dt.dayofweek] of a valid day, across month and year ends. *)
Theorem day_of_week_next_day d :
  valid_date d = true -> day_of_week (next_day d) = (day_of_week d + 1) mod 7.
Proof.
  intros Hv. unfold day_of_week. rewrite epoch_day_next_day by assumption. zlia.
Qed.

Lemma day_of_week_next_day_witness :
  valid_date (mkDate 2024 12 31) = true /\ day_of_week (next_day (mkDate 2024 12 31)) = (day_of_week (mkDate 2024 12 31) + 1) mod 7.
Proof. split; [reflexivity|]. apply (day_of_week_next_day (mkDate 2024 12 31)). reflexivity. Defined.

Lemma check_date_Ok d d' :
  check_date d = Ok d' -> d' = d /\ valid_date d = true /\ in_ns_bounds d = true.
Proof.
  unfold check_date. destruct (valid_date d), (in_ns_bounds d); intros H; res_inv; auto.
Qed.

Lemma in_ns_bounds_year d :
  valid_date d = true -> in_ns_bounds d = true -> 1677 <= year d <= 2262.
Proof.
  intros (Hm & Hd)%valid_date_spec Hb.
  pose proof (days_in_month_bounds (year d) (month d) Hm).
  unfold in_ns_bounds, date_key in Hb. apply andb_true_iff in Hb as [H1 H2].
  apply Z.leb_le in H1, H2. lia.
Qed.

(** C13: formatting a timestamp with "%m/%d/%Y" and parsing it again
    (etl.py 89-90) gives the same date back: for every date pandas can
    hold, the normalisation never fails and never moves a weather row to
    another day. *)
Theorem normalize_date_roundtrip d :
  valid_date d = true -> in_ns_bounds d = true -> normalize_date d = Ok d.
Proof.
  intros Hv Hb. pose proof Hv as (Hm & Hd)%valid_date_spec.
  pose proof (days_in_month_bounds (year d) (month d) Hm).
  pose proof (in_ns_bounds_year d Hv Hb).
  unfold normalize_date, parse_mdy, strftime_mdy.
  rewrite split_join.
  2: discriminate.
  2: repeat apply List.Forall_cons; try apply List.Forall_nil; apply has_char_pad; cbv; lia.
  rewrite !parse_field_pad by (simpl; lia).
  unfold check_date. destruct d; simpl in *. by rewrite Hv, Hb.
Qed.

Lemma normalize_date_roundtrip_witness :
  valid_date (mkDate 2024 2 29) = true /\ in_ns_bounds (mkDate 2024 2 29) = true /\
  normalize_date (mkDate 2024 2 29) = Ok (mkDate 2024 2 29).
Proof.
  split; [reflexivity|]. split; [reflexivity|].
  apply normalize_date_roundtrip; reflexivity.
Defined.

(** Every date [to_datetime] returns for an ISO string survives the
    normalisation unchanged. *)
Lemma parse_iso_normalize s d : parse_iso s = Ok d -> normalize_date d = Ok d.
Proof.
  unfold parse_iso. intros H.
  repeat (case_match; try discriminate).
  apply check_date_Ok in H as (-> & Hv & Hb). by apply normalize_date_roundtrip.
Qed.

End Timestamp.
