(* ===== verification/Weather.v ===== *)
(** * Weather: [toolbox.get_data] and the weather frame of etl.py

    [get_data] (src/utils/toolbox.py 5-29) sends one GET request to the
    Open-Meteo historical-forecast endpoint and returns [data["daily"]], or
    the dictionary [{"error": "Error al obtener datos: ..."}] when
    [requests] raises a [RequestException] (a transport failure, or a body
    that is not JSON: [requests.JSONDecodeError] is a [RequestException]).
    etl.py 69-79 turns the returned dictionary into a frame with columns
    [date], [temp_max], [temp_min] and [temperature] =
    [round((temp_max + temp_min) / 2, 1)], and 86-90 normalises the dates.

    The HTTP exchange is an input of the model ([http_outcome]); the JSON
    document is the [json] tree [json.loads] builds. *)

From Stdlib Require Import Qround Qabs Lqa.
From S2P Require Import Prelude Calendar.
Import Timestamp.

Module OpenMeteo.

(** ** JSON values and Python dictionary access *)

#[warnings="-register-all"]
Inductive json : Type :=
| JNull
| JBool (b : bool)
| JNum (q : Q)
| JStr (s : string)
| JArr (xs : list json)
| JObj (fields : list (string * json)).

(** [json.loads] keeps the last of duplicated keys. *)
Definition assoc_last (k : string) (fields : list (string * json)) : option json :=
  foldl (fun acc kv => if string_dec k kv.1 then Some kv.2 else acc) None fields.

(** [v[k]] on a decoded JSON value. *)
Definition json_get (v : json) (k : string) : res json :=
  match v with
  | JObj fs => of_option (KeyError k) (assoc_last k fs)
  | JArr _ => Err (TypeError "list indices must be integers or slices, not str")
  | JStr _ => Err (TypeError "string indices must be integers")
  | JNull => Err (TypeError "'NoneType' object is not subscriptable")
  | JNum _ => Err (TypeError "'float' object is not subscriptable")
  | JBool _ => Err (TypeError "'bool' object is not subscriptable")
  end.

(** ** [get_data] *)

(** What [requests.get(url, params=params)] followed by [response.json()]
    produce: a [RequestException] from the transport, or a response whose
    body decodes to a JSON value ([None] when [response.json()] raises
    [JSONDecodeError]). *)
Inductive http_outcome : Type :=
| ConnectionFailed (msg : string)
| Received (body : option json).

Definition error_dict (msg : string) : json :=
  JObj [("error"%string, JStr ("Error al obtener datos: " +++ msg))].

(** toolbox.py 19-29: only [RequestException] is caught; [data["daily"]]
    on a JSON document without that key raises [KeyError]. *)
Definition get_data (r : http_outcome) : res json :=
  match r with
  | ConnectionFailed msg => Ok (error_dict msg)
  | Received None => Ok (error_dict "Expecting value")
  | Received (Some data) => json_get data "daily"
  end.

(** ** Half-to-even rounding ([Series.round(1)], numpy's [around]) *)

(** [numpy.rint]: the nearest integer, ties to the even one. *)
Definition round_half_even (q : Q) : Z :=
  let f := Qfloor q in
  match Qcompare (q - inject_Z f) (1 # 2) with
  | Lt => f
  | Gt => f + 1
  | Eq => if Z.even f then f else f + 1
  end.

(** [numpy.around(x, 1)] = [rint(x * 10) / 10]. *)
Definition round1 (q : Q) : Q := inject_Z (round_half_even (q * 10)) / 10.

(** ** The weather frame *)

Record weather_row := mkWeatherRow {
  w_date : date;
  w_temp_max : option Q;
  w_temp_min : option Q;
  w_temperature : option Q
}.

(** [pd.to_datetime] of one entry of [daily["time"]]. *)
Definition date_cell (x : json) : res date :=
  match x with
  | JStr s => parse_iso s
  | _ => Err (TypeError "<class> is not convertible to datetime")
  end.

(** [pd.to_datetime] of the [daily["time"]] array. *)
Definition json_dates (v : json) : res (list date) :=
  match v with
  | JArr xs => res_map date_cell xs
  | _ => Err (TypeError "arg must be a list of date strings")
  end.

(** One cell of a numeric column: JSON [null] is NaN ([None]). *)
Definition float_cell (x : json) : res (option Q) :=
  match x with
  | JNum q => Ok (Some q)
  | JNull => Ok None
  | _ => Err (TypeError "unsupported operand type(s) for +")
  end.

Definition json_floats (v : json) : res (list (option Q)) :=
  match v with
  | JArr xs => res_map float_cell xs
  | _ => Err (TypeError "unsupported operand type(s) for +")
  end.

(** etl.py 79: [((temp_max + temp_min) / 2).round(1)], NaN if either is. *)
Definition mean_temperature (tmax tmin : option Q) : option Q :=
  match tmax, tmin with
  | Some a, Some b => Some (round1 ((a + b) / 2))
  | _, _ => None
  end.

Fixpoint zip_weather (ds : list date) (hi lo : list (option Q)) : list weather_row :=
  match ds, hi, lo with
  | d :: ds', a :: hi', b :: lo' => mkWeatherRow d a b (mean_temperature a b) :: zip_weather ds' hi' lo'
  | _, _, _ => []
  end.

(** etl.py 72-79: the three columns are read in the order of the dict
    literal, [pd.DataFrame] refuses columns of different lengths, and the
    addition of line 79 fails on a non-numeric cell.  (A scalar where
    Open-Meteo sends an array, which pandas would broadcast, is reported
    as an error: the model covers array-shaped responses.) *)
Definition weather_frame (temps : json) : res (list weather_row) :=
  let* times := json_get temps "time" in
  let* dates := json_dates times in
  let* hi_j := json_get temps "temperature_2m_max" in
  let* lo_j := json_get temps "temperature_2m_min" in
  match hi_j, lo_j with
  | JArr his, JArr los =>
      if (length dates =? length his)%nat && (length dates =? length los)%nat then
        let* hi := json_floats hi_j in
        let* lo := json_floats lo_j in
        Ok (zip_weather dates hi lo)
      else Err (ValueError "All arrays must be of the same length")
  | _, _ => Err (ValueError "temperature columns must be JSON arrays")
  end.

(** etl.py 86-90: [to_datetime] (a no-op on a datetime column), then the
    "%m/%d/%Y" round of every date. *)
Definition normalize_weather (rows : list weather_row) : res (list weather_row) :=
  res_map (fun r => let* d := normalize_date (w_date r) in
                    Ok (mkWeatherRow d (w_temp_max r) (w_temp_min r) (w_temperature r))) rows.

(** etl.py 93: the right side of the join, [df_weather[["date", "temperature"]]]. *)
Definition weather_keyed (rows : list weather_row) : list (date * option Q) :=
  map (fun r => (w_date r, w_temperature r)) rows.

(** ** Rounding lemmas *)

Local Open Scope Q_scope.

Lemma Qfloor_frac q : 0 <= q - inject_Z (Qfloor q) < 1.
Proof.
  pose proof (Qfloor_le q). pose proof (Qlt_floor q).
  rewrite inject_Z_plus in *. change (inject_Z 1) with 1 in *. split; lra.
Qed.

#[export] Instance round_half_even_Proper : Proper (Qeq ==> eq) round_half_even.
Proof.
  intros q1 q2 Hq. unfold round_half_even. rewrite (Qfloor_comp q1 q2 Hq).
  assert (E : q1 - inject_Z (Qfloor q2) == q2 - inject_Z (Qfloor q2)) by (rewrite Hq; reflexivity).
  rewrite E. reflexivity.
Qed.

Lemma round_half_even_floor q :
  (Qfloor q <= round_half_even q <= Qfloor q + 1)%Z.
Proof.
  unfold round_half_even.
  destruct (_ ?= _); [destruct (Z.even _)|..]; lia.
Qed.

(** The rounded value is within one half of the argument. *)
Lemma round_half_even_dist q : Qabs (q - inject_Z (round_half_even q)) <= 1 # 2.
Proof.
  pose proof (Qfloor_frac q) as Hf. unfold round_half_even.
  destruct (Qcompare_spec (q - inject_Z (Qfloor q)) (1 # 2)) as [E|E|E];
    [destruct (Z.even _)|..]; rewrite ?inject_Z_plus; change (inject_Z 1) with 1;
    apply Qabs_case; intros; lra.
Qed.

Lemma round_half_even_Z k : round_half_even (inject_Z k) = k.
Proof.
  unfold round_half_even. rewrite Qfloor_Z.
  assert (E : inject_Z k - inject_Z k == 0) by ring. rewrite E. reflexivity.
Qed.

Lemma round_half_even_mono q1 q2 : q1 <= q2 -> (round_half_even q1 <= round_half_even q2)%Z.
Proof.
  intros Hq. pose proof (Qfloor_resp_le q1 q2 Hq) as Hf.
  pose proof (round_half_even_floor q1). pose proof (round_half_even_floor q2).
  destruct (Z.eq_dec (Qfloor q1) (Qfloor q2)) as [E|]; [|lia].
  pose proof (Qfloor_frac q1). pose proof (Qfloor_frac q2).
  unfold round_half_even. rewrite E in *.
  set (f := Qfloor q2) in *.
  destruct (Qcompare_spec (q1 - inject_Z f) (1 # 2));
  destruct (Qcompare_spec (q2 - inject_Z f) (1 # 2));
    try destruct (Z.even f); try lia; exfalso; lra.
Qed.

#[export] Instance round1_Proper : Proper (Qeq ==> Qeq) round1.
Proof. intros q1 q2 Hq. unfold round1. by rewrite Hq. Qed.

Lemma round1_mono q1 q2 : q1 <= q2 -> round1 q1 <= round1 q2.
Proof.
  intros Hq. unfold round1.
  assert (H10 : q1 * 10 <= q2 * 10) by lra.
  pose proof (round_half_even_mono _ _ H10) as Hr. rewrite Zle_Qle in Hr.
  apply Qmult_le_compat_r; [assumption|]. discriminate.
Qed.

(** A number with one decimal is left unchanged by [round(1)]. *)
Lemma round1_tenth k : round1 (inject_Z k / 10) == inject_Z k / 10.
Proof.
  unfold round1. assert (E : inject_Z k / 10 * 10 == inject_Z k) by field.
  rewrite E, round_half_even_Z. reflexivity.
Qed.

Lemma round1_dist q : Qabs (round1 q - q) <= 1 # 20.
Proof.
  pose proof (round_half_even_dist (q * 10)) as H. unfold round1.
  set (r := inject_Z (round_half_even (q * 10))) in *.
  assert (E : r / 10 - q == - ((q * 10 - r) / 10)) by field. rewrite E, Qabs_opp.
  assert (E' : (q * 10 - r) / 10 == (q * 10 - r) * (1 # 10)) by field. rewrite E'.
  rewrite Qabs_Qmult. change (Qabs (1 # 10)) with (1 # 10).
  apply Qle_trans with ((1 # 2) * (1 # 10)); [|discriminate].
  apply Qmult_le_compat_r; [assumption|discriminate].
Qed.

#[export] Hint Resolve round1_mono round_half_even_mono : etl.

Local Close Scope Q_scope.

(** ** The frame *)

Lemma zip_weather_length ds hi lo :
  length hi = length ds -> length lo = length ds -> length (zip_weather ds hi lo) = length ds.
Proof.
  revert hi lo. induction ds as [|d ds IH]; intros [|a hi] [|b lo]; simpl; try lia.
  intros. f_equal. apply IH; lia.
Qed.

(** Row [i] of [zip_weather] is built from entry [i] of each column. *)
Lemma lookup_zip_weather ds hi lo i r :
  zip_weather ds hi lo !! i = Some r ->
  ds !! i = Some (w_date r) /\ hi !! i = Some (w_temp_max r) /\ lo !! i = Some (w_temp_min r) /\
  w_temperature r = mean_temperature (w_temp_max r) (w_temp_min r).
Proof.
  revert hi lo i. induction ds as [|d ds IH]; intros [|a hi] [|b lo] i; try discriminate.
  destruct i as [|i]; simpl; [intros [= <-]; auto|apply IH].
Qed.

Lemma json_floats_length xs l : json_floats (JArr xs) = Ok l -> length l = length xs.
Proof. apply res_map_length. Qed.

(** Every date read from the [time] array is a valid timestamp that the
    "%m/%d/%Y" normalisation leaves in place. *)
Lemma json_dates_normalize v ds :
  json_dates v = Ok ds -> Forall (fun d => normalize_date d = Ok d) ds.
Proof.
  destruct v; simpl; intros H; try discriminate.
  apply res_map_Forall2 in H. induction H as [|x d xs ds Hx _ IH]; constructor; [|exact IH].
  destruct x; try discriminate. by apply (parse_iso_normalize s).
Qed.

Lemma normalize_zip_weather ds hi lo :
  Forall (fun d => normalize_date d = Ok d) ds ->
  normalize_weather (zip_weather ds hi lo) = Ok (zip_weather ds hi lo).
Proof.
  revert hi lo. induction ds as [|d ds IH]; intros [|a hi] [|b lo] Hall; try reflexivity.
  invc Hall. unfold normalize_weather in *. cbn [zip_weather res_map w_date].
  rewrite H1. cbn [res_bind w_temp_max w_temp_min w_temperature].
  by rewrite (IH hi lo H2).
Qed.

(** Unfold a successful [weather_frame] into its steps. *)
Lemma weather_frame_Ok temps rows :
  weather_frame temps = Ok rows ->
  exists times ds his los hi lo,
    json_get temps "time" = Ok times /\ json_dates times = Ok ds /\
    json_get temps "temperature_2m_max" = Ok (JArr his) /\
    json_get temps "temperature_2m_min" = Ok (JArr los) /\
    json_floats (JArr his) = Ok hi /\ json_floats (JArr los) = Ok lo /\
    length his = length ds /\ length los = length ds /\ rows = zip_weather ds hi lo.
Proof.
  unfold weather_frame. intros H. res_inv.
  destruct x1 as [| | | |his|]; try discriminate.
  destruct x2 as [| | | |los|]; try discriminate.
  destruct (Nat.eqb_spec (length x0) (length his)); [|discriminate].
  destruct (Nat.eqb_spec (length x0) (length los)); [|discriminate].
  simpl in H. res_inv. do 6 eexists. repeat split; eauto.
Qed.

(** A two-day Open-Meteo [daily] dictionary. *)
Definition sample_daily : json :=
  JObj [("time"%string, JArr [JStr "2024-06-01"; JStr "2024-06-02"]);
        ("temperature_2m_max"%string, JArr [JNum (223 # 10); JNull]);
        ("temperature_2m_min"%string, JArr [JNum (173 # 10); JNum 18])].

Definition sample_rows : list weather_row :=
  Eval vm_compute in match weather_frame sample_daily with Ok r => r | Err _ => [] end.

(** C15: a weather frame built from an Open-Meteo dictionary has one row
    per entry of [daily["time"]], and its row [i] is read from entry [i] of
    each of the three arrays: the date parsed from [time[i]], [temp_max]
    from [temperature_2m_max[i]] and [temp_min] from
    [temperature_2m_min[i]] (JSON [null] as NaN); its [temperature] is the
    mean of the two rounded half-to-even to one decimal (NaN when either
    is NaN). *)
Theorem weather_frame_shape temps rows :
  weather_frame temps = Ok rows ->
  exists times his los,
    json_get temps "time" = Ok (JArr times) /\
    json_get temps "temperature_2m_max" = Ok (JArr his) /\
    json_get temps "temperature_2m_min" = Ok (JArr los) /\
    length rows = length times /\
    forall i r, rows !! i = Some r ->
      (exists x, times !! i = Some x /\ date_cell x = Ok (w_date r)) /\
      (exists x, his !! i = Some x /\ float_cell x = Ok (w_temp_max r)) /\
      (exists x, los !! i = Some x /\ float_cell x = Ok (w_temp_min r)) /\
      w_temperature r = mean_temperature (w_temp_max r) (w_temp_min r).
Proof.
  intros (times & ds & his & los & hi & lo & Ht & Hd & Hh & Hl & Hhi & Hlo & Hl1 & Hl2 & ->)
         %weather_frame_Ok.
  destruct times as [| | | |xs|]; try discriminate.
  exists xs, his, los. do 3 (split; [assumption|]). split.
  - pose proof (json_floats_length _ _ Hhi). pose proof (json_floats_length _ _ Hlo).
    rewrite zip_weather_length by lia. eapply res_map_length, Hd.
  - intros i r (Hdi & Hhii & Hloi & Htemp)%lookup_zip_weather.
    split; [|split; [|split]]; [eapply res_map_lookup; [exact Hd|exact Hdi]
                               |eapply res_map_lookup; [exact Hhi|exact Hhii]
                               |eapply res_map_lookup; [exact Hlo|exact Hloi]|exact Htemp].
Qed.

Lemma weather_frame_shape_witness :
  weather_frame sample_daily = Ok sample_rows /\
  exists times his los,
    json_get sample_daily "time" = Ok (JArr times) /\
    json_get sample_daily "temperature_2m_max" = Ok (JArr his) /\
    json_get sample_daily "temperature_2m_min" = Ok (JArr los) /\
    length sample_rows = length times /\
    forall i r, sample_rows !! i = Some r ->
      (exists x, times !! i = Some x /\ date_cell x = Ok (w_date r)) /\
      (exists x, his !! i = Some x /\ float_cell x = Ok (w_temp_max r)) /\
      (exists x, los !! i = Some x /\ float_cell x = Ok (w_temp_min r)) /\
      w_temperature r = mean_temperature (w_temp_max r) (w_temp_min r).
Proof.
  assert (H : weather_frame sample_daily = Ok sample_rows) by (vm_compute; reflexivity).
  split; [exact H|]. exact (weather_frame_shape _ _ H).
Defined.

(** C14: the dates of a weather frame survive the "%m/%d/%Y" round of
    etl.py 89-90: the normalisation returns the frame unchanged. *)
Theorem normalize_weather_frame temps rows :
  weather_frame temps = Ok rows -> normalize_weather rows = Ok rows.
Proof.
  intros (times & ds & his & los & hi & lo & _ & Hd & _ & _ & _ & _ & _ & _ & ->)
         %weather_frame_Ok.
  by apply normalize_zip_weather, json_dates_normalize with times.
Qed.

Lemma normalize_weather_frame_witness :
  weather_frame sample_daily = Ok sample_rows /\ normalize_weather sample_rows = Ok sample_rows.
Proof.
  assert (H : weather_frame sample_daily = Ok sample_rows) by (vm_compute; reflexivity).
  split; [exact H|]. exact (normalize_weather_frame _ _ H).
Defined.

(** C16: with temperatures given to one decimal, as Open-Meteo reports
    them, the daily mean lies between the minimum and the maximum of the
    day: half-to-even rounding never leaves the interval. *)
Theorem mean_temperature_between (i j : Z) (t : Q) :
  (i <= j)%Z ->
  mean_temperature (Some (inject_Z j / 10)%Q) (Some (inject_Z i / 10)%Q) = Some t ->
  (inject_Z i / 10 <= t <= inject_Z j / 10)%Q.
Proof.
  intros Hij H. injection H as <-. rewrite Zle_Qle in Hij.
  rewrite <- (round1_tenth i) at 1. rewrite <- (round1_tenth j) at 3.
  split; apply round1_mono; unfold Qdiv; change (Qinv 10) with (1 # 10)%Q; change (Qinv 2) with (1 # 2)%Q;
    lra.
Qed.

Lemma mean_temperature_between_witness :
  (198 <= 205)%Z /\
  mean_temperature (Some (inject_Z 205 / 10)%Q) (Some (inject_Z 198 / 10)%Q) = Some (inject_Z 202 / 10)%Q /\
  (inject_Z 198 / 10 <= inject_Z 202 / 10 <= inject_Z 205 / 10)%Q.
Proof.
  split; [lia|]. split; [vm_compute; reflexivity|].
  apply (mean_temperature_between 198 205); [lia|vm_compute; reflexivity].
Defined.

End OpenMeteo.
