(* ===== verification/Merge.v ===== *)
(** * Merge: the left join of sales with the daily weather (etl.py 93)

    [pd.merge(df_sales, df_weather[["date", "temperature"]], on="date",
    how="left")] keeps every sales row, in the order of [df_sales]; a sales
    row whose date has several weather rows is repeated once per match, in
    the order of the weather frame, and one with no match gets a NaN
    temperature.  A sales row is the record [pd.read_csv] makes of one line
    of [data/sales.csv] (columns [date], [category], [price], [sales]). *)

From S2P Require Import Prelude Calendar.
Import Timestamp.

Module LeftJoin.

Record sales_record := mkSale {
  s_date : date;
  s_category : string;
  s_price : Q;
  s_sales : Q
}.

(** A row of [df_final]: the sales columns and the joined [temperature]. *)
Record merged_record := mkMerged {
  m_sale : sales_record;
  m_temperature : option Q
}.

(** The weather rows whose date equals [d], in the order of the frame. *)
Definition matches (d : date) (right : list (date * option Q)) : list (option Q) :=
  map snd (List.filter (fun w => bool_decide (w.1 = d)) right).

(** The rows one sales row contributes to the left join. *)
Definition join_row (right : list (date * option Q)) (s : sales_record) : list merged_record :=
  match matches (s_date s) right with
  | [] => [mkMerged s None]
  | ts => map (mkMerged s) ts
  end.

Definition left_join (sales : list sales_record) (right : list (date * option Q)) :
    list merged_record :=
  flat_map (join_row right) sales.

(** ** Lemmas *)

Lemma matches_nil d right : d ∉ map fst right -> matches d right = [].
Proof.
  induction right as [|[d' t] right IH]; intros Hn; [reflexivity|].
  unfold matches in *. simpl in *. rewrite bool_decide_false by set_solver.
  apply IH. set_solver.
Qed.

Lemma matches_nodup_le1 d right :
  NoDup (map fst right) -> (length (matches d right) <= 1)%nat.
Proof.
  induction right as [|[d' t] right IH]; intros Hnd; [simpl; lia|].
  simpl in Hnd. apply NoDup_cons in Hnd as [Hnin Hnd].
  unfold matches in *. simpl. case_bool_decide as E; simpl in *; [|by apply IH].
  subst d'. fold (matches d right). rewrite matches_nil by assumption. simpl. lia.
Qed.


Lemma length_join_row right s : (1 <= length (join_row right s))%nat.
Proof. unfold join_row. destruct (matches (s_date s) right); simpl; lia. Qed.

(** With unique weather dates the date of a weather row matches that row
    alone. *)
Lemma matches_in d t right :
  NoDup (map fst right) -> (d, t) ∈ right -> matches d right = [t].
Proof.
  induction right as [|[d' t'] right IH]; intros Hnd Hin; [set_solver|].
  simpl in Hnd. apply NoDup_cons in Hnd as [Hn Hnd].
  unfold matches in *. simpl. apply elem_of_cons in Hin as [[= <- <-]|Hin].
  - rewrite bool_decide_true by reflexivity. simpl. fold (matches d right).
    by rewrite matches_nil.
  - rewrite bool_decide_false; [by apply IH|]. intros ->. apply Hn.
    apply list_elem_of_In, in_map_iff. exists (d, t). split; [done|by apply list_elem_of_In].
Qed.

Lemma join_row_in right s t :
  NoDup (map fst right) -> (s_date s, t) ∈ right -> join_row right s = [mkMerged s t].
Proof. intros Hnd Hin. unfold join_row. by rewrite (matches_in _ _ _ Hnd Hin). Qed.

Lemma join_row_notin right s : s_date s ∉ map fst right -> join_row right s = [mkMerged s None].
Proof. intros Hn. unfold join_row. by rewrite matches_nil. Qed.

Lemma length_join_row_unique right s : NoDup (map fst right) -> length (join_row right s) = 1%nat.
Proof.
  intros Hnd. destruct (decide (s_date s ∈ map fst right)) as [Hin|Hn].
  - apply list_elem_of_In, in_map_iff in Hin as ([d t] & Hd & Hin). apply list_elem_of_In in Hin.
    simpl in Hd. subst d. by rewrite (join_row_in _ _ _ Hnd Hin).
  - by rewrite join_row_notin.
Qed.

Lemma length_left_join_unique sales right :
  NoDup (map fst right) -> length (left_join sales right) = length sales.
Proof.
  intros Hnd. unfold left_join. induction sales as [|s sales IH]; simpl; [reflexivity|].
  rewrite length_app, length_join_row_unique by assumption. simpl. by rewrite IH.
Qed.

Lemma length_left_join_ge sales right : (length sales <= length (left_join sales right))%nat.
Proof.
  unfold left_join. induction sales as [|s sales IH]; simpl; [lia|].
  rewrite length_app. pose proof (length_join_row right s). lia.
Qed.

#[export] Hint Resolve length_join_row matches_nodup_le1 : etl.

(** ** Properties of the join *)

(** C2: when the weather dates are unique (the Open-Meteo daily series has
    one row per day) the merged frame is the sales frame row for row, in
    order: each row keeps its sales fields, carries the temperature [t] of
    the weather row [(date, t)] of its date, and NaN when no weather row has
    its date. *)
Theorem left_join_unique sales right :
  NoDup (map fst right) ->
  Forall2 (fun s m => m_sale m = s /\
             (forall t, (s_date s, t) ∈ right -> m_temperature m = t) /\
             (s_date s ∉ map fst right -> m_temperature m = None))
          sales (left_join sales right).
Proof.
  intros Hnd. unfold left_join. induction sales as [|s sales IH]; [constructor|]. simpl.
  destruct (decide (s_date s ∈ map fst right)) as [Hin|Hn].
  - pose proof Hin as Hin'.
    apply list_elem_of_In, in_map_iff in Hin' as ([d t] & Hd & Ht). apply list_elem_of_In in Ht.
    simpl in Hd. subst d. rewrite (join_row_in _ _ _ Hnd Ht). constructor; [|exact IH].
    split; [done|]. split; [|done]. intros t' Ht'. exact (NoDup_fst_unique _ _ _ _ Hnd Ht Ht').
  - rewrite join_row_notin by exact Hn. constructor; [|exact IH].
    split; [done|]. split; [|done]. intros t Ht. exfalso. apply Hn.
    apply list_elem_of_In, in_map_iff. exists (s_date s, t). split; [done|by apply list_elem_of_In].
Qed.

Lemma left_join_unique_witness :
  NoDup (map fst [(mkDate 2024 6 1, Some 20%Q); (mkDate 2024 6 2, Some 21%Q)]) /\
  Forall2 (fun s m => m_sale m = s /\
             (forall t, (s_date s, t) ∈ [(mkDate 2024 6 1, Some 20%Q); (mkDate 2024 6 2, Some 21%Q)] ->
                        m_temperature m = t) /\
             (s_date s ∉ map fst [(mkDate 2024 6 1, Some 20%Q); (mkDate 2024 6 2, Some 21%Q)] ->
              m_temperature m = None))
    [mkSale (mkDate 2024 6 2) "A" 10 13; mkSale (mkDate 2024 6 3) "B" 20 18]
    (left_join [mkSale (mkDate 2024 6 2) "A" 10 13; mkSale (mkDate 2024 6 3) "B" 20 18]
               [(mkDate 2024 6 1, Some 20%Q); (mkDate 2024 6 2, Some 21%Q)]).
Proof.
  assert (Hnd : NoDup (map fst [(mkDate 2024 6 1, Some 20%Q); (mkDate 2024 6 2, Some 21%Q)]))
    by (repeat constructor; set_solver).
  split; [exact Hnd|]. exact (left_join_unique _ _ Hnd).
Defined.


End LeftJoin.
