(* ===== verification/OneHot.v ===== *)
(** * OneHot: the category encoder of [toolbox.preprocessing]

    src/utils/toolbox.py 42-44 builds
    [OneHotEncoder(sparse_output=False, handle_unknown="ignore")], calls
    [fit_transform] on the [category] column and names the columns with
    [get_feature_names_out(["category"])].  For a column of strings
    scikit-learn's [fit] takes [sorted(set(values))] as the categories;
    [transform] writes one 1.0 in the column of the row's category and
    0.0 elsewhere (a category [fit] did not see, which [handle_unknown=
    "ignore"] would map to zeros, cannot occur: the column is encoded with
    the categories fitted on itself).  [fit] validates its input with
    [check_array(ensure_min_samples=1)]: an empty column raises
    [ValueError].  Strings are byte strings compared byte by byte, which is
    the code-point order of their UTF-8 text. *)

From stdpp Require Import gmap strings sorting.
From S2P Require Import Prelude.

Module Encoder.

(** [encoder.fit(...).categories_[0]]: [sorted(set(values))]. *)
Definition categories_of (vals : list string) : list string :=
  merge_sort String.le (elements (list_to_set vals : gset string)).

(** [get_feature_names_out(["category"])]. *)
Definition feature_names (cats : list string) : list string :=
  map (fun c => "category_" +++ c) cats.

(** One row of [transform]: 1.0 in the column of [v], 0.0 elsewhere. *)
Definition encode_row (cats : list string) (v : string) : list Q :=
  map (fun c => if bool_decide (c = v) then 1%Q else 0%Q) cats.

Definition transform (cats : list string) (vals : list string) : list (list Q) :=
  map (encode_row cats) vals.

(** [fit_transform]: the input check of [fit], the categories of this very
    column, then [transform]. *)
Definition fit_transform (vals : list string) : res (list string * list (list Q)) :=
  match vals with
  | [] => Err (ValueError "Found array with 0 sample(s) (shape=(0, 1)) while a minimum of 1 is required by OneHotEncoder.")
  | _ => let cats := categories_of vals in Ok (feature_names cats, transform cats vals)
  end.

(** ** The categories *)

Lemma categories_of_perm vals : categories_of vals ≡ₚ elements (list_to_set vals : gset string).
Proof. apply merge_sort_Permutation. Qed.

Lemma categories_of_NoDup vals : NoDup (categories_of vals).
Proof. rewrite categories_of_perm. apply NoDup_elements. Qed.

Lemma elem_of_categories_of vals x : x ∈ categories_of vals <-> x ∈ vals.
Proof. rewrite categories_of_perm, elem_of_elements. set_solver. Qed.

Lemma categories_of_sorted vals : StronglySorted String.le (categories_of vals).
Proof. apply StronglySorted_merge_sort; apply _. Qed.

#[export] Hint Resolve categories_of_NoDup categories_of_sorted : etl.

(** ** Rows of the encoding *)

Lemma length_encode_row cats v : length (encode_row cats v) = length cats.
Proof. apply length_map. Qed.

Lemma encode_row_unknown cats v : v ∉ cats -> encode_row cats v = replicate (length cats) 0%Q.
Proof.
  induction cats as [|c cs IH]; intros Hv; [reflexivity|].
  simpl. rewrite bool_decide_false by set_solver. f_equal. apply IH. set_solver.
Qed.

Lemma encode_row_known cats i v :
  NoDup cats -> cats !! i = Some v -> encode_row cats v = <[i := 1%Q]> (replicate (length cats) 0%Q).
Proof.
  revert i. induction cats as [|c cs IH]; intros i Hnd Hi; [done|].
  apply NoDup_cons in Hnd as [Hc Hnd]. destruct i as [|i]; simpl in *.
  - injection Hi as ->. rewrite bool_decide_true by reflexivity.
    f_equal. by apply encode_row_unknown.
  - assert (c <> v) as Hcv.
    { intros ->. apply Hc. by eapply list_elem_of_lookup_2. }
    rewrite bool_decide_false by done. f_equal. by apply IH.
Qed.

(** Every row of [transform] over the categories of its own column is a
    one-hot row. *)
Lemma transform_self_one_hot vals :
  Forall2 (fun v row => exists i, categories_of vals !! i = Some v /\
             row = <[i := 1%Q]> (replicate (length (categories_of vals)) 0%Q))
          vals (transform (categories_of vals) vals).
Proof.
  unfold transform. apply Forall2_fmap_r, Forall_Forall2_diag, Forall_forall. intros v Hv.
  assert (Hc : v ∈ categories_of vals) by (by apply elem_of_categories_of).
  apply list_elem_of_lookup in Hc as [i Hi]. exists i. split; [exact Hi|].
  apply encode_row_known; [apply categories_of_NoDup|exact Hi].
Qed.

#[export] Hint Rewrite length_encode_row : etl_rw.

(** ** Properties of the encoder *)

(** C20: the categories [fit] finds are [sorted(set(values))] and nothing
    else: any strictly sorted, duplicate-free list of exactly the values of
    the column is the list of categories.  The one-hot columns are thus a
    function of the set of categories present in the batch, which is why a
    batch missing a category has fewer columns than the training data. *)
Theorem categories_of_spec vals cs :
  StronglySorted String.le cs -> NoDup cs -> (forall x, x ∈ cs <-> x ∈ vals) ->
  categories_of vals = cs.
Proof.
  intros Hs Hnd Hel. apply (StronglySorted_unique String.le); [apply categories_of_sorted|exact Hs|].
  apply NoDup_Permutation; [apply categories_of_NoDup|exact Hnd|].
  intros x. rewrite elem_of_categories_of. symmetry. apply Hel.
Qed.

Lemma categories_of_spec_witness :
  StronglySorted String.le ["A"; "B"]%string /\ NoDup ["A"; "B"]%string /\
  (forall x, x ∈ ["A"; "B"]%string <-> x ∈ ["A"; "B"; "A"]%string) /\
  categories_of ["A"; "B"; "A"]%string = ["A"; "B"]%string.
Proof.
  assert (Hs : StronglySorted String.le ["A"; "B"]%string).
  { repeat constructor; vm_compute; exact I. }
  assert (Hnd : NoDup ["A"; "B"]%string) by (repeat constructor; set_solver).
  assert (Hel : forall x, x ∈ ["A"; "B"]%string <-> x ∈ ["A"; "B"; "A"]%string) by set_solver.
  split; [exact Hs|]. split; [exact Hnd|]. split; [exact Hel|].
  exact (categories_of_spec _ _ Hs Hnd Hel).
Defined.

(** C4: [fit_transform] raises [ValueError] on an empty column, and on any
    other column it is a one-hot encoding: the column names are
    ["category_" + c] for the sorted categories, there is one row per
    input value, and the row of a value [v] has 1.0 in the column of [v]
    and 0.0 in every other column. *)
Theorem fit_transform_one_hot vals :
  let cats := categories_of vals in
  (vals = [] -> exists msg, fit_transform vals = Err (ValueError msg)) /\
  (vals <> [] ->
   exists encoded, fit_transform vals = Ok (feature_names cats, encoded) /\
   Forall2 (fun v row => exists i, cats !! i = Some v /\
                                   row = <[i := 1%Q]> (replicate (length cats) 0%Q))
           vals encoded).
Proof.
  intros cats. split.
  - intros ->. by eexists.
  - intros Hne. exists (transform cats vals). split; [by destruct vals|].
    apply transform_self_one_hot.
Qed.

Lemma fit_transform_one_hot_witness :
  (["A"; "B"; "A"]%string = [] ->
   exists msg, fit_transform ["A"; "B"; "A"]%string = Err (ValueError msg)) /\
  (["A"; "B"; "A"]%string <> [] ->
   exists encoded, fit_transform ["A"; "B"; "A"]%string =
                   Ok (feature_names (categories_of ["A"; "B"; "A"]%string), encoded) /\
   Forall2 (fun v row => exists i, categories_of ["A"; "B"; "A"]%string !! i = Some v /\
              row = <[i := 1%Q]> (replicate (length (categories_of ["A"; "B"; "A"]%string)) 0%Q))
           ["A"; "B"; "A"]%string encoded).
Proof. exact (fit_transform_one_hot ["A"; "B"; "A"]%string). Defined.

End Encoder.
