(* ===== verification/Features.v ===== *)
(** * Features: [toolbox.preprocessing], the model-ready feature matrix

    src/utils/toolbox.py 33-50: from the merged frame, derive
    [day_of_week], [month] and [day_of_year] from [date], one-hot encode
    [category], concatenate, and select the columns
    [["temperature", "price", "day_of_week", "month", "day_of_year"]]
    followed by the one-hot columns.  A frame is a list of column names
    and a list of rows of cells; a cell is a float, [None] for NaN (the
    temperature of a sales row without weather).  The encoder raises
    [ValueError] on an empty batch, and so does [preprocessing]. *)

From S2P Require Import Prelude Calendar Merge OneHot.
Import Timestamp LeftJoin Encoder.

Module Preprocessing.

Record frame := mkFrame {
  columns : list string;
  rows : list (list (option Q))
}.

(** toolbox.py 48: the fixed leading columns of the feature matrix. *)
Definition base_columns : list string :=
  ["temperature"; "price"; "day_of_week"; "month"; "day_of_year"]%string.

(** toolbox.py 36-39: the calendar columns of one row. *)
Definition calendar_cells (d : date) : list (option Q) :=
  [Some (inject_Z (day_of_week d)); Some (inject_Z (month_of d)); Some (inject_Z (day_of_year d))].

(** toolbox.py 45-49: one row of [X], the selected columns in order. *)
Definition feature_row (m : merged_record) (onehot : list Q) : list (option Q) :=
  [m_temperature m; Some (s_price (m_sale m))] ++ calendar_cells (s_date (m_sale m)) ++
  map Some onehot.

(** [toolbox.preprocessing(df)]. *)
Definition preprocessing (df : list merged_record) : res frame :=
  let* enc := fit_transform (map (fun m => s_category (m_sale m)) df) in
  let '(names, encoded) := enc in
  Ok (mkFrame (base_columns ++ names) (zip_with feature_row df encoded)).

(** [y = df_final["sales"]] (etl.py 97). *)
Definition target (df : list merged_record) : list Q := map (fun m => s_sales (m_sale m)) df.

(** ** Lemmas *)

Lemma length_feature_row m oh : length (feature_row m oh) = (5 + length oh)%nat.
Proof. unfold feature_row. simpl. by rewrite length_map. Qed.

Lemma preprocessing_nil : exists msg, preprocessing [] = Err (ValueError msg).
Proof. by eexists. Qed.

Lemma preprocessing_unfold df :
  df <> [] ->
  preprocessing df =
  Ok (mkFrame (base_columns ++ feature_names (categories_of (map (fun m => s_category (m_sale m)) df)))
              (zip_with feature_row df
                 (transform (categories_of (map (fun m => s_category (m_sale m)) df))
                            (map (fun m => s_category (m_sale m)) df)))).
Proof. by destruct df. Qed.

Lemma zip_feature_rows {A} (f : merged_record -> A) (P : A -> list Q -> Prop) df enc :
  Forall2 P (map f df) enc ->
  Forall2 (fun m row => exists oh, P (f m) oh /\ row = feature_row m oh) df (zip_with feature_row df enc).
Proof.
  revert enc. induction df as [|m df IH]; intros enc H; simpl in *.
  - constructor.
  - inversion H as [|x oh xs ohs Hp Hrest]; subst. simpl. constructor; eauto.
Qed.

(** ** Properties of the feature matrix *)

(** C3: [preprocessing] raises [ValueError] on an empty batch (the
    encoder's input check); on any other batch it returns the columns
    [temperature, price, day_of_week, month, day_of_year] followed by
    ["category_" + c] for the sorted categories of the batch, one row per
    merged row, and each row is the row's temperature (NaN kept, not
    imputed), price, calendar fields and a one-hot block with its 1.0 in
    the column of the row's category; every row has as many cells as there
    are columns. *)
Theorem preprocessing_shape df :
  let cats := categories_of (map (fun m => s_category (m_sale m)) df) in
  (df = [] -> exists msg, preprocessing df = Err (ValueError msg)) /\
  (df <> [] ->
   exists X, preprocessing df = Ok X /\
   columns X = base_columns ++ feature_names cats /\
   length (rows X) = length df /\
   Forall2 (fun m row => exists i, cats !! i = Some (s_category (m_sale m)) /\
              row = [m_temperature m; Some (s_price (m_sale m))] ++
                    calendar_cells (s_date (m_sale m)) ++
                    map Some (<[i := 1%Q]> (replicate (length cats) 0%Q)))
           df (rows X) /\
   Forall (fun row => length row = length (columns X)) (rows X)).
Proof.
  intros cats. split; [intros ->; apply preprocessing_nil|]. intros Hne.
  eexists. split; [exact (preprocessing_unfold df Hne)|]. cbn [columns rows].
  pose proof (zip_feature_rows _ _ df _ (transform_self_one_hot (map (fun m => s_category (m_sale m)) df)))
    as H.
  fold cats in H. split; [reflexivity|]. split; [|split].
  - by apply Forall2_length in H.
  - eapply Forall2_impl; [exact H|]. intros m row (oh & (i & Hi & ->) & ->). eauto.
  - apply Forall_forall. intros row Hrow. apply list_elem_of_lookup in Hrow as [k Hk].
    destruct (Forall2_lookup_r _ _ _ _ _ H Hk) as (m & _ & oh & (i & _ & ->) & ->).
    rewrite length_feature_row, length_insert, length_replicate, length_app. unfold feature_names.
    by rewrite length_map.
Qed.

Lemma preprocessing_shape_witness :
  let df := [mkMerged (mkSale (mkDate 2024 6 1) "A" 10 13) (Some 20%Q)] in
  let cats := categories_of (map (fun m => s_category (m_sale m)) df) in
  (df = [] -> exists msg, preprocessing df = Err (ValueError msg)) /\
  (df <> [] ->
   exists X, preprocessing df = Ok X /\
   columns X = base_columns ++ feature_names cats /\
   length (rows X) = length df /\
   Forall2 (fun m row => exists i, cats !! i = Some (s_category (m_sale m)) /\
              row = [m_temperature m; Some (s_price (m_sale m))] ++
                    calendar_cells (s_date (m_sale m)) ++
                    map Some (<[i := 1%Q]> (replicate (length cats) 0%Q)))
           df (rows X) /\
   Forall (fun row => length row = length (columns X)) (rows X)).
Proof. exact (preprocessing_shape [mkMerged (mkSale (mkDate 2024 6 1) "A" 10 13) (Some 20%Q)]). Defined.

(** Two merged rows: a sale with weather and one without. *)
Definition sample_merged : list merged_record :=
  [mkMerged (mkSale (mkDate 2024 6 1) "A" 10 13) (Some 20%Q);
   mkMerged (mkSale (mkDate 2024 12 31) "B" 20 18) None].

Definition sample_features : frame :=
  Eval vm_compute in match preprocessing sample_merged with Ok X => X | Err _ => mkFrame [] [] end.

(** C18: the calendar cells of every row of the feature matrix are in
    range: day_of_week in 0..6, month in 1..12, day_of_year in 1..366,
    for sales dates that pandas accepted. *)
Theorem preprocessing_calendar_cells df X :
  preprocessing df = Ok X ->
  Forall (fun m => valid_date (s_date (m_sale m)) = true) df ->
  Forall2 (fun m row => exists dw mo dy,
             row !! 2%nat = Some (Some (inject_Z dw)) /\ row !! 3%nat = Some (Some (inject_Z mo)) /\
             row !! 4%nat = Some (Some (inject_Z dy)) /\
             (0 <= dw <= 6)%Z /\ (1 <= mo <= 12)%Z /\ (1 <= dy <= 366)%Z)
          df (rows X).
Proof.
  intros HX Hv. destruct df as [|m0 df0]; [discriminate|].
  rewrite preprocessing_unfold in HX by discriminate. injection HX as <-. cbn [rows].
  set (df := m0 :: df0) in *.
  pose proof (zip_feature_rows _ _ df _ (transform_self_one_hot (map (fun m => s_category (m_sale m)) df)))
    as H.
  eapply Forall2_impl; [exact (Forall2_Forall_l_and _ _ _ _ H Hv)|].
  intros m row (Hd & oh & _ & ->). set (d := s_date (m_sale m)) in *.
  exists (day_of_week d), (month_of d), (day_of_year d).
  pose proof (day_of_week_range d). pose proof (day_of_year_range d Hd).
  pose proof (proj1 (valid_date_spec d) Hd). unfold month_of. repeat split; try reflexivity; lia.
Qed.

Lemma preprocessing_calendar_cells_witness :
  preprocessing sample_merged = Ok sample_features /\
  Forall (fun m => valid_date (s_date (m_sale m)) = true) sample_merged /\
  Forall2 (fun m row => exists dw mo dy,
             row !! 2%nat = Some (Some (inject_Z dw)) /\ row !! 3%nat = Some (Some (inject_Z mo)) /\
             row !! 4%nat = Some (Some (inject_Z dy)) /\
             (0 <= dw <= 6)%Z /\ (1 <= mo <= 12)%Z /\ (1 <= dy <= 366)%Z)
    sample_merged (rows sample_features).
Proof.
  assert (H1 : preprocessing sample_merged = Ok sample_features) by (vm_compute; reflexivity).
  assert (H2 : Forall (fun m => valid_date (s_date (m_sale m)) = true) sample_merged)
    by (repeat constructor).
  split; [exact H1|]. split; [exact H2|]. exact (preprocessing_calendar_cells _ _ H1 H2).
Defined.

End Preprocessing.
