(* ===== verification/Evaluate.v ===== *)
(** * Evaluate: scoring the two predictors and choosing one (etl.py 99-124)

    The two artifacts [joblib.load] returns (an XGBoost regressor and a
    linear regression) are used only through [predict(X)]: a predictor is
    the record of that one method ([predictor]), which may raise (for
    instance scikit-learn's [LinearRegression] refuses a NaN cell).  A
    loaded model is read-only, so [predict] is a function of [X]: the
    second call of etl.py 121/124 returns what the call scored at 111/112
    returned.  [mean_absolute_error] is scikit-learn's: it raises on
    inputs of different lengths and on empty inputs. *)

From Stdlib Require Import Qabs Qminmax Lqa.
From S2P Require Import Prelude Calendar Merge Features.
Import LeftJoin Preprocessing.

Module ModelSelection.

Local Open Scope Q_scope.

(** Python's [<] on two floats. *)
Definition Qlt_bool (a b : Q) : bool := match a ?= b with Lt => true | _ => false end.

(** The one capability the pipeline uses of a model. *)
Record predictor := mkPredictor { predict : frame -> res (list Q) }.

(** Sum of absolute errors. *)
Fixpoint abs_errors (y p : list Q) : Q :=
  match y, p with
  | a :: y', b :: p' => Qabs (a - b) + abs_errors y' p'
  | _, _ => 0
  end.

(** [sklearn.metrics.mean_absolute_error(y_true, y_pred)]. *)
Definition mean_absolute_error (y p : list Q) : res Q :=
  if negb (length y =? length p)%nat then
    Err (ValueError "Found input variables with inconsistent numbers of samples")
  else if (length y =? 0)%nat then Err (ValueError "Found array with 0 sample(s)")
  else Ok (abs_errors y p / inject_Z (Z.of_nat (length y))).

Inductive model_choice := UseXGBoost | UseLinear.

#[export] Instance model_choice_eq_dec : EqDecision model_choice.
Proof. solve_decision. Defined.

(** etl.py 111-112: both MAEs, the XGBoost model first. *)
Definition evaluate_models (xgb lr : predictor) (X : frame) (y : list Q) : res (Q * Q) :=
  let* px := predict xgb X in
  let* mae_xgb := mean_absolute_error y px in
  let* pl := predict lr X in
  let* mae_lr := mean_absolute_error y pl in
  Ok (mae_xgb, mae_lr).

(** etl.py 119: [if mae_xgb < mae_lr] ... [else] the linear model. *)
Definition select_model (mae_xgb mae_lr : Q) : model_choice :=
  if Qlt_bool mae_xgb mae_lr then UseXGBoost else UseLinear.

Definition chosen (c : model_choice) (xgb lr : predictor) : predictor :=
  match c with UseXGBoost => xgb | UseLinear => lr end.

(** etl.py 109-124 up to the column assignment: the choice and the
    predictions of the chosen model. *)
Definition final_predictions (xgb lr : predictor) (X : frame) (y : list Q) :
    res (model_choice * list Q) :=
  let* maes := evaluate_models xgb lr X y in
  let c := select_model maes.1 maes.2 in
  let* p := predict (chosen c xgb lr) X in
  Ok (c, p).

(** A row of [df_final] once [sales_prediction] is assigned. *)
Record scored_record := mkScored {
  sc_row : merged_record;
  sc_prediction : Q
}.

(** [df_final["sales_prediction"] = p]: the lengths must agree. *)
Definition assign_predictions (df : list merged_record) (p : list Q) : res (list scored_record) :=
  if (length p =? length df)%nat then Ok (zip_with mkScored df p)
  else Err (ValueError "Length of values does not match length of index").

(** ** Lemmas on the mean absolute error *)

Lemma Qlt_bool_iff a b : Qlt_bool a b = true <-> a < b.
Proof.
  unfold Qlt_bool. rewrite Qlt_alt. destruct (a ?= b); split; congruence.
Qed.

Lemma abs_errors_nonneg y p : 0 <= abs_errors y p.
Proof.
  revert p. induction y as [|a y IH]; intros [|b p]; cbn [abs_errors]; try lra.
  pose proof (Qabs_nonneg (a - b)). specialize (IH p). lra.
Qed.

Lemma abs_errors_zero y p :
  length y = length p -> abs_errors y p == 0 <-> Forall2 Qeq y p.
Proof.
  revert p. induction y as [|a y IH]; intros [|b p] Hl; cbn [abs_errors length] in *; try discriminate.
  - split; [constructor|reflexivity].
  - injection Hl as Hl. pose proof (Qabs_nonneg (a - b)) as Ha. pose proof (abs_errors_nonneg y p) as Hr.
    split.
    + intros Hz. assert (Qabs (a - b) == 0) as Hab by lra.
      constructor; [|apply IH; [exact Hl|lra]].
      revert Hab. apply Qabs_case; intros; lra.
    + intros Hall. invc Hall. apply (IH p Hl) in H4. rewrite H4.
      assert (E : a - b == 0) by (rewrite H2; ring). rewrite E. reflexivity.
Qed.

#[export] Instance abs_errors_Proper : Proper (Forall2 Qeq ==> Forall2 Qeq ==> Qeq) abs_errors.
Proof.
  intros y1 y2 Hy. induction Hy as [|a1 a2 y1 y2 Ha Hy IH]; intros p1 p2 Hp; cbn [abs_errors].
  - destruct Hp; reflexivity.
  - destruct Hp as [|b1 b2 p1 p2 Hb Hp]; [reflexivity|]. rewrite Ha, Hb, (IH _ _ Hp). reflexivity.
Qed.

Lemma mean_absolute_error_Ok y p m :
  mean_absolute_error y p = Ok m ->
  length y = length p /\ (0 < length y)%nat /\
  m == abs_errors y p / inject_Z (Z.of_nat (length y)).
Proof.
  unfold mean_absolute_error.
  destruct (Nat.eqb_spec (length y) (length p)); simpl; [|discriminate].
  destruct (Nat.eqb_spec (length y) 0); simpl; [discriminate|].
  intros H. injection H as <-. split; [assumption|]. split; [lia|reflexivity].
Qed.

Lemma n_samples_pos (n : nat) : (0 < n)%nat -> 0 < inject_Z (Z.of_nat n).
Proof. intros Hn. change 0 with (inject_Z 0). rewrite <- Zlt_Qlt. lia. Qed.

#[export] Hint Resolve abs_errors_nonneg n_samples_pos : etl.

(** The MAE only depends on the values of its inputs (not on how the
    rationals are written). *)
#[export] Instance mean_absolute_error_Proper :
  Proper (Forall2 Qeq ==> Forall2 Qeq ==> res_equiv Qeq) mean_absolute_error.
Proof.
  intros y1 y2 Hy p1 p2 Hp. unfold mean_absolute_error.
  rewrite (Forall2_length _ _ _ Hy), (Forall2_length _ _ _ Hp).
  destruct (negb _); [reflexivity|]. destruct (_ =? 0)%nat; [reflexivity|].
  simpl. by rewrite Hy, Hp.
Qed.

(** Unfold a successful [evaluate_models] into its four calls. *)
Lemma evaluate_models_Ok xgb lr X y mx ml :
  evaluate_models xgb lr X y = Ok (mx, ml) ->
  exists px pl, predict xgb X = Ok px /\ mean_absolute_error y px = Ok mx /\
                predict lr X = Ok pl /\ mean_absolute_error y pl = Ok ml.
Proof. unfold evaluate_models. intros H. res_inv. eauto 10. Qed.

Lemma final_predictions_unfold xgb lr X y px pl mx ml :
  predict xgb X = Ok px -> predict lr X = Ok pl ->
  mean_absolute_error y px = Ok mx -> mean_absolute_error y pl = Ok ml ->
  final_predictions xgb lr X y = Ok (if Qlt_bool mx ml then (UseXGBoost, px) else (UseLinear, pl)).
Proof.
  intros Hx Hl Hmx Hml. unfold final_predictions, evaluate_models.
  rewrite Hx; simpl. rewrite Hmx; simpl. rewrite Hl; simpl. rewrite Hml; simpl.
  unfold select_model. destruct (Qlt_bool mx ml); simpl; [by rewrite Hx|by rewrite Hl].
Qed.

(** A model that ignores its input and returns fixed predictions, for the
    concrete scenarios below. *)
Definition const_predictor (p : list Q) : predictor :=
  mkPredictor (fun X => if (length (rows X) =? length p)%nat then Ok p
                        else Err (ValueError "X has the wrong number of rows")).

(** ** Properties of the evaluation *)

(** C1: etl.py 109-124 keeps the predictions of the XGBoost model exactly
    when its MAE is strictly lower than the linear model's, and those of
    the linear model otherwise; the predictions kept are the ones that were
    scored. *)
Theorem final_predictions_select xgb lr X y px pl mx ml :
  predict xgb X = Ok px -> predict lr X = Ok pl ->
  mean_absolute_error y px = Ok mx -> mean_absolute_error y pl = Ok ml ->
  final_predictions xgb lr X y = Ok (if Qlt_bool mx ml then (UseXGBoost, px) else (UseLinear, pl)).
Proof. apply final_predictions_unfold. Qed.

(** The scenario of the spec: three rows, a model predicting [12,18,14]
    and one predicting [5,5,5] against the target [13,18,15]. *)
Definition scenario_frame : frame := mkFrame [] [[]; []; []].
Definition scenario_target : list Q := [13; 18; 15].

Lemma final_predictions_select_witness :
  predict (const_predictor [12; 18; 14]) scenario_frame = Ok [12; 18; 14] /\
  predict (const_predictor [5; 5; 5]) scenario_frame = Ok [5; 5; 5] /\
  mean_absolute_error scenario_target [12; 18; 14] = Ok (2 / 3) /\
  mean_absolute_error scenario_target [5; 5; 5] = Ok (31 / 3) /\
  final_predictions (const_predictor [12; 18; 14]) (const_predictor [5; 5; 5])
    scenario_frame scenario_target = Ok (UseXGBoost, [12; 18; 14]).
Proof.
  do 4 (split; [vm_compute; reflexivity|]).
  exact (final_predictions_select (const_predictor [12; 18; 14]) (const_predictor [5; 5; 5])
           scenario_frame scenario_target [12; 18; 14] [5; 5; 5] (2 / 3) (31 / 3)
           eq_refl eq_refl eq_refl eq_refl).
Defined.

(** C6: the choice refines "keep the predictions of minimal MAE": the
    predictions etl.py assigns to [sales_prediction] have the MAE
    [min(mae_xgb, mae_lr)]. *)
Theorem selected_mae_minimal xgb lr X y c p mx ml :
  evaluate_models xgb lr X y = Ok (mx, ml) ->
  final_predictions xgb lr X y = Ok (c, p) ->
  exists m, mean_absolute_error y p = Ok m /\ m == Qmin mx ml.
Proof.
  intros He Hf. destruct (evaluate_models_Ok _ _ _ _ _ _ He) as (px & pl & Hx & Hmx & Hl & Hml).
  rewrite (final_predictions_unfold _ _ _ _ _ _ _ _ Hx Hl Hmx Hml) in Hf.
  destruct (Qlt_bool mx ml) eqn:E; injection Hf as <- <-.
  - exists mx. split; [exact Hmx|]. apply Qlt_bool_iff in E. symmetry. apply Q.min_l. lra.
  - exists ml. split; [exact Hml|]. assert (~ mx < ml) as Hn by (rewrite <- Qlt_bool_iff; congruence).
    symmetry. apply Q.min_r. lra.
Qed.

Lemma selected_mae_minimal_witness :
  evaluate_models (const_predictor [12; 18; 14]) (const_predictor [5; 5; 5])
    scenario_frame scenario_target = Ok (2 / 3, 31 / 3) /\
  final_predictions (const_predictor [12; 18; 14]) (const_predictor [5; 5; 5])
    scenario_frame scenario_target = Ok (UseXGBoost, [12; 18; 14]) /\
  exists m, mean_absolute_error scenario_target [12; 18; 14] = Ok m /\ m == Qmin (2 / 3) (31 / 3).
Proof.
  split; [vm_compute; reflexivity|]. split; [vm_compute; reflexivity|].
  apply (selected_mae_minimal (const_predictor [12; 18; 14]) (const_predictor [5; 5; 5])
           scenario_frame scenario_target UseXGBoost); vm_compute; reflexivity.
Defined.

(** C21: the MAE is zero exactly for perfect predictions, and scikit-learn
    refuses predictions of the wrong length or an empty target with
    [ValueError]; on every other input it returns a value. *)
Theorem mean_absolute_error_cases y p :
  (length y <> length p -> exists msg, mean_absolute_error y p = Err (ValueError msg)) /\
  (y = [] -> exists msg, mean_absolute_error y p = Err (ValueError msg)) /\
  (length y = length p -> y <> [] ->
   exists m, mean_absolute_error y p = Ok m /\ 0 <= m /\ (m == 0 <-> Forall2 Qeq y p)).
Proof.
  unfold mean_absolute_error. split; [|split].
  - intros Hl. destruct (Nat.eqb_spec (length y) (length p)); [done|]. eauto.
  - intros ->. destruct (Nat.eqb_spec (length (@nil Q)) (length p)); simpl; eauto.
  - intros Hl Hne. destruct (Nat.eqb_spec (length y) (length p)); [simpl|done].
    destruct (Nat.eqb_spec (length y) 0) as [E|E]; [by apply nil_length_inv in E|].
    eexists; split; [reflexivity|].
    assert (Hd : 0 < inject_Z (Z.of_nat (length y))) by (apply n_samples_pos; lia).
    pose proof (abs_errors_nonneg y p). split.
    + apply Qle_shift_div_l; [exact Hd|lra].
    + rewrite <- (abs_errors_zero y p Hl). split; intros Hz.
      * assert (Hd0 : ~ inject_Z (Z.of_nat (length y)) == 0) by lra.
        assert (Eab : abs_errors y p == abs_errors y p / inject_Z (Z.of_nat (length y)) *
                                      inject_Z (Z.of_nat (length y))) by (field; exact Hd0).
        rewrite Eab, Hz. ring.
      * rewrite Hz. unfold Qdiv. apply Qmult_0_l.
Qed.

(** The scenario of the spec evaluated: the two MAEs are 2/3 and 31/3
    (the spec states 1.0 and 11.67); the XGBoost predictions are kept all
    the same. *)
Example spec_scenario_mae :
  mean_absolute_error scenario_target [12; 18; 14] = Ok (2 / 3) /\
  mean_absolute_error scenario_target [5; 5; 5] = Ok (31 / 3) /\
  ~ (2 / 3 == 1) /\ ~ (31 / 3 == 1167 / 100) /\
  final_predictions (const_predictor [12; 18; 14]) (const_predictor [5; 5; 5])
    scenario_frame scenario_target = Ok (UseXGBoost, [12; 18; 14]).
Proof. repeat split; vm_compute; try reflexivity; discriminate. Qed.

End ModelSelection.
