(* ===== verification/Queries.v ===== *)
(** * Queries: reading utils/queries.sql (etl.py 126-133)

    [queries = [q.strip() for q in f.read().split(";") if q.strip()]] and
    [create_table_query = queries[0]].  [str.strip()] removes the
    characters Python's [str.isspace] accepts; on the ASCII text of the SQL
    script these are tab, line feed, vertical tab, form feed, carriage
    return (9-13), the separators 0x1C-0x1F and space (28-32).  (The
    non-ASCII spaces Python also strips do not occur in the ASCII script
    and are not modelled.) *)

From S2P Require Import Prelude.

Module SqlScript.

(** [c.isspace()] for an ASCII character. *)
Definition is_space (c : ascii) : bool :=
  let n := nat_of_ascii c in ((9 <=? n) && (n <=? 13)) || ((28 <=? n) && (n <=? 32)).

(** [s.lstrip()] *)
Fixpoint lstrip (s : string) : string :=
  match s with
  | EmptyString => EmptyString
  | String c s' => if is_space c then lstrip s' else s
  end.

(** [s.rstrip()] *)
Fixpoint rstrip (s : string) : string :=
  match s with
  | EmptyString => EmptyString
  | String c s' =>
      match rstrip s' with
      | EmptyString => if is_space c then EmptyString else String c EmptyString
      | r => String c r
      end
  end.

(** [s.strip()] *)
Definition strip (s : string) : string := rstrip (lstrip s).

(** [bool(s)]: a string is true when it is not empty. *)
Definition nonempty (s : string) : bool :=
  match s with EmptyString => false | _ => true end.

(** etl.py 129 *)
Definition parse_queries (text : string) : list string :=
  List.filter nonempty (map strip (split_on ";"%char text)).

(** etl.py 133: [queries[0]], an [IndexError] on a script without any
    statement. *)
Definition create_table_query (text : string) : res string :=
  match parse_queries text with
  | q :: _ => Ok q
  | [] => Err (IndexError "list index out of range")
  end.

(** ** Lemmas on stripping *)

Lemma lstrip_head s :
  lstrip s = EmptyString \/ exists c t, lstrip s = String c t /\ is_space c = false.
Proof.
  induction s as [|c s IH]; simpl; [by left|].
  destruct (is_space c) eqn:E; [exact IH|right; eauto].
Qed.

Lemma rstrip_keep c t : is_space c = false -> rstrip (String c t) = String c (rstrip t).
Proof. intros Hc. simpl. destruct (rstrip t); [by rewrite Hc|reflexivity]. Qed.

Lemma rstrip_cons_nonempty c t : rstrip t <> EmptyString -> rstrip (String c t) = String c (rstrip t).
Proof. intros Hne. simpl. destruct (rstrip t); [done|reflexivity]. Qed.

Lemma rstrip_idem s : rstrip (rstrip s) = rstrip s.
Proof.
  induction s as [|c s IH]; simpl; [reflexivity|].
  destruct (rstrip s) as [|c' t] eqn:E.
  - destruct (is_space c) eqn:Hc; simpl; [reflexivity|by rewrite Hc].
  - rewrite rstrip_cons_nonempty by (rewrite IH; discriminate). by rewrite IH.
Qed.

(** [strip] is idempotent: a stripped string has no surrounding spaces. *)
Lemma strip_idem s : strip (strip s) = strip s.
Proof.
  unfold strip. destruct (lstrip_head s) as [->|(c & t & -> & Hc)]; [reflexivity|].
  rewrite rstrip_keep by exact Hc. simpl. rewrite Hc.
  rewrite rstrip_keep by exact Hc. by rewrite rstrip_idem.
Qed.

Lemma has_char_lstrip a s : has_char a s = false -> has_char a (lstrip s) = false.
Proof.
  induction s as [|c s IH]; simpl; [done|].
  destruct (ascii_dec c a); [discriminate|]. intros H.
  destruct (is_space c); [auto|simpl]. by destruct (ascii_dec c a).
Qed.

Lemma has_char_rstrip a s : has_char a s = false -> has_char a (rstrip s) = false.
Proof.
  induction s as [|c s IH]; simpl; [done|].
  destruct (ascii_dec c a) as [|Hca]; [discriminate|]. intros H.
  specialize (IH H). destruct (rstrip s) eqn:E.
  - destruct (is_space c); simpl; [done|]. by destruct (ascii_dec c a).
  - simpl. destruct (ascii_dec c a); [done|exact IH].
Qed.

Lemma has_char_strip a s : has_char a s = false -> has_char a (strip s) = false.
Proof. intros H. by apply has_char_rstrip, has_char_lstrip. Qed.

#[export] Hint Resolve has_char_strip : etl.
#[export] Hint Rewrite strip_idem rstrip_idem : etl_rw.

Lemma filter_strip_blank (ps : list string) :
  Forall (fun p => strip p = EmptyString) ps -> List.filter nonempty (map strip ps) = [].
Proof. induction 1 as [|p ps Hp _ IH]; simpl; [reflexivity|]. by rewrite Hp. Qed.

(** ** Properties of the script reader *)

(** C23: every statement etl.py reads from queries.sql is non-empty,
    contains no [;] and has no leading or trailing whitespace (stripping it
    again changes nothing). *)
Theorem parse_queries_clean text :
  Forall (fun q => nonempty q = true /\ has_char ";"%char q = false /\ strip q = q)
         (parse_queries text).
Proof.
  unfold parse_queries. pose proof (split_on_no_sep_pieces ";"%char text) as H.
  induction H as [|p ps Hp _ IH]; simpl; [constructor|].
  destruct (nonempty (strip p)) eqn:E; [|exact IH].
  constructor; [|exact IH]. split; [exact E|]. split; [by apply has_char_strip|apply strip_idem].
Qed.

(** C24: [queries[0]] is the first statement of the script that is not
    blank, stripped; a script whose [;]-separated pieces are all blank
    makes etl.py 133 raise [IndexError]. *)
Theorem create_table_query_spec text :
  (forall pre p post, split_on ";"%char text = pre ++ p :: post ->
     Forall (fun x => strip x = EmptyString) pre -> strip p <> EmptyString ->
     create_table_query text = Ok (strip p)) /\
  (Forall (fun x => strip x = EmptyString) (split_on ";"%char text) ->
     create_table_query text = Err (IndexError "list index out of range")).
Proof.
  unfold create_table_query, parse_queries. split.
  - intros pre p post -> Hpre Hp. rewrite map_app, List.filter_app, filter_strip_blank by exact Hpre.
    simpl. destruct (strip p) eqn:E; [done|reflexivity].
  - intros H. by rewrite filter_strip_blank.
Qed.

Lemma create_table_query_spec_witness :
  split_on ";"%char " ; CREATE TABLE t (a int);" = [" "; " CREATE TABLE t (a int)"; ""]%string /\
  Forall (fun x => strip x = EmptyString) [" "%string] /\
  strip " CREATE TABLE t (a int)" <> EmptyString /\
  create_table_query " ; CREATE TABLE t (a int);" = Ok (strip " CREATE TABLE t (a int)").
Proof.
  assert (H1 : split_on ";"%char " ; CREATE TABLE t (a int);" = [" "%string] ++ " CREATE TABLE t (a int)"%string :: [""%string])
    by reflexivity.
  assert (H2 : Forall (fun x => strip x = EmptyString) [" "%string]) by (repeat constructor).
  assert (H3 : strip " CREATE TABLE t (a int)" <> EmptyString) by discriminate.
  split; [exact H1|]. split; [exact H2|]. split; [exact H3|].
  exact (proj1 (create_table_query_spec _) _ _ _ H1 H2 H3).
Defined.

End SqlScript.
