(* ===== verification/Sinks.v ===== *)
(** * Sinks: the two databases the pipeline writes to (etl.py 135-169)

    The pipeline uses a database through three calls: the DDL of
    queries.sql in [engine.begin()] (etl.py 139-140, 146-147),
    [df_final.to_sql("sales_predictions", engine, if_exists="append",
    index=False)] (155, 158) and ["SELECT COUNT(*) FROM sales_predictions"]
    (163-169).  [Sink] states these operations as the interface the
    pipeline is proved against; [SinkLaws] is what a sink promises
    (spec section 4.4: the DDL is an idempotent "create if absent", an
    append adds exactly the rows given, the count reads the rows back).
    [database] is a model of a PostgreSQL table that implements it: the
    server is reachable or not, the table exists or not.  The first
    statement of queries.sql is taken to be the CREATE TABLE IF NOT EXISTS
    the spec describes (the script is not part of src/). *)

From S2P Require Import Prelude.

Module Persistence.

(** What the pipeline calls on a database. *)
Class Sink (R S : Type) := {
  run_ddl : string -> S -> res S;
  append_rows : list R -> S -> res S;
  count_rows : S -> res nat
}.

(** What a sink promises: the DDL is idempotent and keeps the rows, an append of [rows]
    followed by a count reads back the earlier rows plus [rows], and an
    append that succeeds leaves a table to count. *)
Class SinkLaws (R S : Type) `{!Sink R S} := {
  ddl_idem : forall q s s', run_ddl q s = Ok s' -> run_ddl q s' = Ok s';
  ddl_count : forall q s s' n, run_ddl q s = Ok s' -> count_rows s = Ok n -> count_rows s' = Ok n;
  append_count : forall rows s s' n,
    append_rows rows s = Ok s' -> count_rows s = Ok n -> count_rows s' = Ok (n + length rows)%nat;
  append_countable : forall rows s s',
    append_rows rows s = Ok s' -> exists n, count_rows s' = Ok n /\ (length rows <= n)%nat
}.

(** A PostgreSQL table seen from the pipeline. *)
Record database (R : Type) := mkDatabase {
  db_reachable : bool;
  db_table : option (list R)
}.
Arguments mkDatabase {R} _ _.
Arguments db_reachable {R} _.
Arguments db_table {R} _.

Definition connection_error : py_exn :=
  OperationalError "could not connect to server".

(** CREATE TABLE IF NOT EXISTS. *)
Definition db_run_ddl {R} (q : string) (d : database R) : res (database R) :=
  if db_reachable d then Ok (mkDatabase true (Some (default [] (db_table d))))
  else Err connection_error.

(** [to_sql(..., if_exists="append")]: creates the table when it is
    missing, then inserts the rows after the existing ones. *)
Definition db_append {R} (rows : list R) (d : database R) : res (database R) :=
  if db_reachable d then Ok (mkDatabase true (Some (default [] (db_table d) ++ rows)))
  else Err connection_error.

(** ["SELECT COUNT(*) FROM sales_predictions"]. *)
Definition db_count {R} (d : database R) : res nat :=
  if db_reachable d then
    match db_table d with
    | Some t => Ok (length t)
    | None => Err (OperationalError "relation sales_predictions does not exist")
    end
  else Err connection_error.

#[export] Instance database_sink (R : Type) : Sink R (database R) := {
  run_ddl := db_run_ddl;
  append_rows := db_append;
  count_rows := db_count
}.

(** ** The model satisfies the contract *)

#[export] Instance database_sink_laws (R : Type) : SinkLaws R (database R).
Proof.
  split; cbn.
  - intros q [[] t] s' H; unfold db_run_ddl in *; simpl in *; res_inv. reflexivity.
  - intros q [[] t] s' n H1 H2; unfold db_run_ddl, db_count in *; simpl in *; res_inv.
    destruct t; res_inv. reflexivity.
  - intros rows [[] t] s' n H1 H2; unfold db_append, db_count in *; simpl in *; res_inv.
    destruct t; res_inv. simpl. by rewrite length_app.
  - intros rows [[] t] s' H; unfold db_append, db_count in *; simpl in *; res_inv.
    eexists; split; [reflexivity|]. rewrite length_app. lia.
Qed.

End Persistence.
