(* ===== verification/Pipeline.v ===== *)
(** * Pipeline: the [__main__] block of src/etl.py

    One run reads its inputs from the environment ([environment]: the
    outcome of the two [create_engine] calls, [data/sales.csv], the
    Open-Meteo response, the two model files, [utils/queries.sql]) and
    acts on the two databases ([world]).  [prepare_batch] is everything
    from reading the sales file to extracting the CREATE TABLE statement
    (etl.py 59-133): it touches no database.  [db_phase] is etl.py
    135-169: the two DDL runs (each in a [try] that logs and swallows the
    exception), the two appends and the two counts (not protected).
    [etl_main] chains them after the local engine is created.  The
    databases are any [Sink] (Sinks.v); the theorems on writes are proved
    from [SinkLaws], and the failure scenarios on the database model. *)

From S2P Require Import Prelude Calendar Weather Merge OneHot Features Evaluate Queries Sinks.
Import Timestamp OpenMeteo LeftJoin Preprocessing ModelSelection SqlScript Persistence.

Module Etl.

(** What one run reads from outside. *)
Record environment := mkEnv {
  env_local_engine : bool;                 (** [create_engine] of the local database succeeded *)
  env_supa_engine : bool;                  (** [create_engine] of Supabase succeeded *)
  env_sales : option (list sales_record);  (** [pd.read_csv("./data/sales.csv")], [None]: no file *)
  env_weather : http_outcome;              (** the Open-Meteo exchange of [get_data] *)
  env_xgb : option predictor;              (** [joblib.load("./models/xgb_model.joblib")] *)
  env_lr : option predictor;               (** [joblib.load("./models/lr_model.joblib")] *)
  env_sql : option string                  (** the text of ./utils/queries.sql *)
}.

(** etl.py 59-133: the scored rows and the DDL statement. *)
Definition prepare_batch (env : environment) : res (list scored_record * string) :=
  let* df_sales := of_option (FileNotFoundError "./data/sales.csv") (env_sales env) in
  let* temperatures := get_data (env_weather env) in
  let* df_weather := weather_frame temperatures in
  let* df_weather := normalize_weather df_weather in
  let df_final := left_join df_sales (weather_keyed df_weather) in
  let* X := preprocessing df_final in
  let y := target df_final in
  let* xgb_model := of_option (FileNotFoundError "./models/xgb_model.joblib") (env_xgb env) in
  let* lr_model := of_option (FileNotFoundError "./models/lr_model.joblib") (env_lr env) in
  let* selection := final_predictions xgb_model lr_model X y in
  let* scored := assign_predictions df_final selection.2 in
  let* script := of_option (FileNotFoundError "./utils/queries.sql") (env_sql env) in
  let* create_table := create_table_query script in
  Ok (scored, create_table).

Section Run.

Context {S : Type} `{!Sink scored_record S}.

(** The two databases. *)
Record world := mkWorld { w_local : S; w_supa : S }.

Definition M (A : Type) : Type := st world A.

(** A statement on [engine_local]. *)
Definition on_local (f : S -> res S) : M unit :=
  fun w => match f (w_local w) with
           | Ok s => (Ok tt, mkWorld s (w_supa w))
           | Err e => (Err e, w)
           end.

(** A statement on [engine_supabase], a name that is unbound when its
    [create_engine] failed (etl.py 49-56 only log that failure). *)
Definition on_supa (engine : bool) (f : S -> res S) : M unit :=
  if engine then
    fun w => match f (w_supa w) with
             | Ok s => (Ok tt, mkWorld (w_local w) s)
             | Err e => (Err e, w)
             end
  else st_lift (Err (NameError "engine_supabase")).

Definition query_local {A} (f : S -> res A) : M A := fun w => (f (w_local w), w).

Definition query_supa {A} (engine : bool) (f : S -> res A) : M A :=
  if engine then fun w => (f (w_supa w), w) else st_lift (Err (NameError "engine_supabase")).

(** etl.py 135-169. *)
Definition db_phase (supa : bool) (scored : list scored_record) (create_table : string) :
    M (nat * nat) :=
  let! _ := st_try (on_local (run_ddl create_table)) in
  let! _ := st_try (on_supa supa (run_ddl create_table)) in
  let! _ := on_local (append_rows scored) in
  let! _ := on_supa supa (append_rows scored) in
  let! n_local := query_local count_rows in
  let! n_supa := query_supa supa count_rows in
  st_ret (n_local, n_supa).

(** The whole script; the result is the two row counts it logs. *)
Definition etl_main (env : environment) : M (nat * nat) :=
  let! _ := st_lift (if env_local_engine env then Ok tt
                     else Err (OperationalError "could not create the local engine")) in
  let! batch := st_lift (prepare_batch env) in
  db_phase (env_supa_engine env) batch.1 batch.2.

(** The state of a database after a DDL run whose exception is swallowed. *)
Definition try_ddl (q : string) (s : S) : S :=
  match run_ddl q s with Ok s' => s' | Err _ => s end.

(** ** Lemmas on the database phase *)

Lemma try_on_local_ddl q w :
  st_try (on_local (run_ddl q)) w = (Ok tt, mkWorld (try_ddl q (w_local w)) (w_supa w)).
Proof.
  destruct w as [l s]. unfold st_try, on_local, try_ddl. cbn. destruct (run_ddl q l); reflexivity.
Qed.

Lemma try_on_supa_ddl q w :
  st_try (on_supa true (run_ddl q)) w = (Ok tt, mkWorld (w_local w) (try_ddl q (w_supa w))).
Proof.
  destruct w as [l s]. unfold st_try, on_supa, try_ddl. cbn. destruct (run_ddl q s); reflexivity.
Qed.

(** A successful database phase: both appends and both counts went through,
    after the DDL runs. *)
Lemma db_phase_Ok supa scored q w n1 n2 w' :
  db_phase supa scored q w = (Ok (n1, n2), w') ->
  supa = true /\ exists l2 s2,
    append_rows scored (try_ddl q (w_local w)) = Ok l2 /\
    append_rows scored (try_ddl q (w_supa w)) = Ok s2 /\
    count_rows l2 = Ok n1 /\ count_rows s2 = Ok n2 /\ w' = mkWorld l2 s2.
Proof.
  intros H. destruct supa.
  - unfold db_phase in H. unfold st_bind at 1 in H. rewrite try_on_local_ddl in H.
    unfold st_bind at 1 in H. rewrite try_on_supa_ddl in H.
    unfold st_bind, on_local, on_supa, query_local, query_supa, st_ret in H. cbn [w_local w_supa] in H.
    destruct (append_rows scored (try_ddl q (w_local w))) as [l2|e] eqn:El; [|discriminate].
    cbn [w_local w_supa] in H.
    destruct (append_rows scored (try_ddl q (w_supa w))) as [s2|e] eqn:Es; [|discriminate].
    cbn [w_local w_supa] in H.
    destruct (count_rows l2) as [k1|e] eqn:Ec1; [|discriminate].
    destruct (count_rows s2) as [k2|e] eqn:Ec2; [|discriminate].
    injection H as -> -> <-. split; [reflexivity|]. eauto 10.
  - unfold db_phase, st_bind, st_try, on_supa, st_lift in H. cbn in H.
    destruct (on_local (run_ddl q) w) as [r w1]. cbn in H.
    destruct (on_local (append_rows scored) w1) as [[] w2]; discriminate.
Qed.

Lemma try_ddl_count `{!SinkLaws scored_record S} q s k :
  count_rows s = Ok k -> count_rows (try_ddl q s) = Ok k.
Proof.
  unfold try_ddl. destruct (run_ddl q s) eqn:E; [|done]. intros Hk. by eapply ddl_count.
Qed.

Lemma etl_main_no_engine env w :
  env_local_engine env = false ->
  etl_main env w = (Err (OperationalError "could not create the local engine"), w).
Proof. intros He. unfold etl_main, st_bind, st_lift. by rewrite He. Qed.

Lemma etl_main_unfold env w :
  env_local_engine env = true ->
  etl_main env w = match prepare_batch env with
                   | Ok batch => db_phase (env_supa_engine env) batch.1 batch.2 w
                   | Err e => (Err e, w)
                   end.
Proof. intros He. unfold etl_main, st_bind, st_lift. rewrite He. by destruct (prepare_batch env). Qed.

End Run.

(** ** Lemmas on the preparation of the batch *)

(** Unfold a successful [prepare_batch] into the steps of etl.py 59-133. *)
Lemma prepare_batch_Ok env scored q :
  prepare_batch env = Ok (scored, q) ->
  exists sales temps w0 w1 X xgb lr c p script,
    env_sales env = Some sales /\ get_data (env_weather env) = Ok temps /\
    weather_frame temps = Ok w0 /\ normalize_weather w0 = Ok w1 /\
    preprocessing (left_join sales (weather_keyed w1)) = Ok X /\
    env_xgb env = Some xgb /\ env_lr env = Some lr /\
    final_predictions xgb lr X (target (left_join sales (weather_keyed w1))) = Ok (c, p) /\
    assign_predictions (left_join sales (weather_keyed w1)) p = Ok scored /\
    env_sql env = Some script /\ create_table_query script = Ok q.
Proof.
  unfold prepare_batch.
  destruct (env_sales env) as [sales|] eqn:E1; cbn [of_option res_bind]; [|discriminate].
  destruct (get_data (env_weather env)) as [temps|] eqn:E2; cbn [res_bind]; [|discriminate].
  destruct (weather_frame temps) as [w0|] eqn:E3; cbn [res_bind]; [|discriminate].
  destruct (normalize_weather w0) as [w1|] eqn:E4; cbn [res_bind]; [|discriminate].
  destruct (preprocessing _) as [X|] eqn:EX; cbn [res_bind]; [|discriminate].
  destruct (env_xgb env) as [xgb|] eqn:E5; cbn [of_option res_bind]; [|discriminate].
  destruct (env_lr env) as [lr|] eqn:E6; cbn [of_option res_bind]; [|discriminate].
  destruct (final_predictions _ _ _ _) as [[c p]|] eqn:E7; cbn [res_bind fst snd]; [|discriminate].
  destruct (assign_predictions _ p) as [sc|] eqn:E8; cbn [res_bind]; [|discriminate].
  destruct (env_sql env) as [script|] eqn:E9; cbn [of_option res_bind]; [|discriminate].
  destruct (create_table_query script) as [q'|] eqn:E10; cbn [res_bind]; [|discriminate].
  intros H. injection H as <- <-. do 10 eexists. eauto 20.
Qed.

Lemma assign_predictions_Ok df p scored :
  assign_predictions df p = Ok scored ->
  map sc_row scored = df /\ map sc_prediction scored = p.
Proof.
  unfold assign_predictions. destruct (Nat.eqb_spec (length p) (length df)) as [Hl|]; [|discriminate].
  intros H. injection H as <-. revert p Hl. induction df as [|m df IH]; intros [|x p] Hl; simpl in *;
    try discriminate; [done|].
  injection Hl as Hl. destruct (IH p Hl) as [-> ->]. done.
Qed.

(** ** Concrete runs *)

(** The scenario of the spec: three sales rows on 2024-06-01..03 with
    categories A, B, A and prices 10, 20, 15; a weather series whose daily
    means are 20.5, 21.0 and 19.8; a model predicting [12,18,14] and one
    predicting [5,5,5]. *)
Definition scenario_sales : list sales_record :=
  [mkSale (mkDate 2024 6 1) "A" 10 13; mkSale (mkDate 2024 6 2) "B" 20 18;
   mkSale (mkDate 2024 6 3) "A" 15 15].

Definition scenario_response (times : list json) : http_outcome :=
  Received (Some (JObj [("daily"%string, JObj [
    ("time"%string, JArr times);
    ("temperature_2m_max"%string, JArr [JNum 25; JNum 24; JNum (223 # 10)%Q]);
    ("temperature_2m_min"%string, JArr [JNum 16; JNum 18; JNum (173 # 10)%Q])])])).


Definition scenario_times : list json := [JStr "2024-06-01"; JStr "2024-06-02"; JStr "2024-06-03"].

Definition scenario_script : string :=
  "CREATE TABLE IF NOT EXISTS sales_predictions (date DATE, category TEXT, price FLOAT,
   sales FLOAT, temperature FLOAT, sales_prediction FLOAT);
SELECT AVG(ABS(sales - sales_prediction)) FROM sales_predictions;".

Definition scenario_env : environment :=
  mkEnv true true (Some scenario_sales) (scenario_response scenario_times)
        (Some (const_predictor [12; 18; 14]%Q)) (Some (const_predictor [5; 5; 5]%Q))
        (Some scenario_script).

Definition fresh_db : database scored_record := mkDatabase true None.
Definition down_db : database scored_record := mkDatabase false None.

Definition scenario_world : world := mkWorld fresh_db fresh_db.

Definition scenario_final : world :=
  Eval vm_compute in snd (etl_main scenario_env scenario_world).

Definition scenario_batch : list scored_record * string :=
  Eval vm_compute in match prepare_batch scenario_env with Ok b => b | Err _ => ([], EmptyString) end.

(** ** Properties of a run *)

(** C8: a run that fails before etl.py 135 (no local engine, a missing or
    unreadable input file, a weather, feature or prediction error, no
    statement in queries.sql) raises and leaves both databases as they
    were: nothing is written before every input has been read and the
    predictions computed. *)
Theorem etl_aborts_before_writing {S} `{!Sink scored_record S} env (w : world) :
  (env_local_engine env = false \/ exists e, prepare_batch env = Err e) ->
  exists e, etl_main env w = (Err e, w).
Proof.
  destruct (env_local_engine env) eqn:He; intros H.
  - destruct H as [H|[e Hp]]; [discriminate|]. exists e. by rewrite etl_main_unfold, Hp.
  - eexists. by apply etl_main_no_engine.
Qed.

Lemma etl_aborts_before_writing_witness :
  (env_local_engine (mkEnv true true (Some scenario_sales) (scenario_response scenario_times)
                       None (Some (const_predictor [5; 5; 5]%Q)) (Some scenario_script)) = false \/
   exists e, prepare_batch (mkEnv true true (Some scenario_sales) (scenario_response scenario_times)
                       None (Some (const_predictor [5; 5; 5]%Q)) (Some scenario_script)) = Err e) /\
  exists e, etl_main (mkEnv true true (Some scenario_sales) (scenario_response scenario_times)
                       None (Some (const_predictor [5; 5; 5]%Q)) (Some scenario_script))
                     scenario_world = (Err e, scenario_world).
Proof.
  assert (H : env_local_engine (mkEnv true true (Some scenario_sales) (scenario_response scenario_times)
                       None (Some (const_predictor [5; 5; 5]%Q)) (Some scenario_script)) = false \/
   exists e, prepare_batch (mkEnv true true (Some scenario_sales) (scenario_response scenario_times)
                       None (Some (const_predictor [5; 5; 5]%Q)) (Some scenario_script)) = Err e).
  { right. eexists. vm_compute. reflexivity. }
  split; [exact H|]. exact (etl_aborts_before_writing _ scenario_world H).
Defined.

(** C7: when a model file is missing, the run raises and no database is
    touched (spec section 4.3: abort before any database mutation). *)
Theorem missing_model_no_write {S} `{!Sink scored_record S} env (w : world) :
  env_xgb env = None \/ env_lr env = None -> exists e, etl_main env w = (Err e, w).
Proof.
  intros Hm. destruct (env_local_engine env) eqn:He.
  - rewrite etl_main_unfold by exact He.
    destruct (prepare_batch env) as [[scored q]|e] eqn:Hp; [|by eexists].
    destruct (prepare_batch_Ok _ _ _ Hp) as (? & ? & ? & ? & ? & ? & ? & ? & ? & ? & _ & _ & _ & _ & _ & Hx & Hl & _).
    destruct Hm; congruence.
  - eexists. by apply etl_main_no_engine.
Qed.

Lemma missing_model_no_write_witness :
  (env_xgb (mkEnv true true (Some scenario_sales) (scenario_response scenario_times)
                  (Some (const_predictor [12; 18; 14]%Q)) None (Some scenario_script)) = None \/
   env_lr (mkEnv true true (Some scenario_sales) (scenario_response scenario_times)
                 (Some (const_predictor [12; 18; 14]%Q)) None (Some scenario_script)) = None) /\
  exists e, etl_main (mkEnv true true (Some scenario_sales) (scenario_response scenario_times)
                 (Some (const_predictor [12; 18; 14]%Q)) None (Some scenario_script))
               scenario_world = (Err e, scenario_world).
Proof.
  split; [right; reflexivity|].
  exact (missing_model_no_write (mkEnv true true (Some scenario_sales) (scenario_response scenario_times)
                 (Some (const_predictor [12; 18; 14]%Q)) None (Some scenario_script)) scenario_world
              (or_intror eq_refl)).
Defined.

(** C10: when the weather request fails, [get_data] returns its error
    dictionary and the run then raises [KeyError: 'time'] at etl.py 73,
    with both databases untouched: a network failure of the weather API is
    fatal, not the degraded continuation the spec describes. *)
Theorem weather_failure_aborts {S} `{!Sink scored_record S} env (w : world) sales msg :
  env_local_engine env = true -> env_sales env = Some sales -> env_weather env = ConnectionFailed msg ->
  etl_main env w = (Err (KeyError "time"), w).
Proof.
  intros He Hs Hw. rewrite etl_main_unfold by exact He.
  unfold prepare_batch. rewrite Hs, Hw. reflexivity.
Qed.

Lemma weather_failure_aborts_witness :
  env_local_engine (mkEnv true true (Some scenario_sales) (ConnectionFailed "timed out")
                      None None None) = true /\
  env_sales (mkEnv true true (Some scenario_sales) (ConnectionFailed "timed out") None None None) =
    Some scenario_sales /\
  env_weather (mkEnv true true (Some scenario_sales) (ConnectionFailed "timed out") None None None) =
    ConnectionFailed "timed out" /\
  etl_main (mkEnv true true (Some scenario_sales) (ConnectionFailed "timed out") None None None)
    scenario_world = (Err (KeyError "time"), scenario_world).
Proof.
  do 3 (split; [reflexivity|]).
  exact (weather_failure_aborts (mkEnv true true (Some scenario_sales) (ConnectionFailed "timed out") None None None)
           scenario_world scenario_sales "timed out" eq_refl eq_refl eq_refl).
Defined.

(** C9: a run that returns has read every input, appended the whole
    batch to both databases and read back counts that include it: on any
    sink satisfying [SinkLaws], each count is at least the number of scored
    rows, and exactly the earlier count plus that number when the table
    could be counted before the run. *)
Theorem etl_success_writes {S} `{!Sink scored_record S} `{!SinkLaws scored_record S}
    env (w : world) n1 n2 w' :
  etl_main env w = (Ok (n1, n2), w') ->
  exists scored q, prepare_batch env = Ok (scored, q) /\ env_supa_engine env = true /\
    (length scored <= n1)%nat /\ (length scored <= n2)%nat /\
    (forall k, count_rows (w_local w) = Ok k -> n1 = (k + length scored)%nat) /\
    (forall k, count_rows (w_supa w) = Ok k -> n2 = (k + length scored)%nat).
Proof.
  intros H. destruct (env_local_engine env) eqn:He; [|by rewrite etl_main_no_engine in H].
  rewrite etl_main_unfold in H by exact He.
  destruct (prepare_batch env) as [[scored q]|e] eqn:Hp; [|discriminate].
  destruct (db_phase_Ok _ _ _ _ _ _ _ H) as (Hs & l2 & s2 & Hl & Hsu & Ec1 & Ec2 & _).
  exists scored, q. split; [reflexivity|]. split; [exact Hs|].
  destruct (append_countable _ _ _ Hl) as (k1 & Ec1' & Hk1).
  destruct (append_countable _ _ _ Hsu) as (k2 & Ec2' & Hk2).
  rewrite Ec1 in Ec1'. rewrite Ec2 in Ec2'. injection Ec1' as <-. injection Ec2' as <-.
  split; [exact Hk1|]. split; [exact Hk2|]. split.
  - intros k Hk. pose proof (append_count _ _ _ _ Hl (try_ddl_count q _ _ Hk)) as E.
    rewrite Ec1 in E. by injection E.
  - intros k Hk. pose proof (append_count _ _ _ _ Hsu (try_ddl_count q _ _ Hk)) as E.
    rewrite Ec2 in E. by injection E.
Qed.

Lemma etl_success_writes_witness :
  etl_main scenario_env scenario_world = (Ok (3, 3)%nat, scenario_final) /\
  exists scored q, prepare_batch scenario_env = Ok (scored, q) /\ env_supa_engine scenario_env = true /\
    (length scored <= 3)%nat /\ (length scored <= 3)%nat /\
    (forall k, count_rows (w_local scenario_world) = Ok k -> 3%nat = (k + length scored)%nat) /\
    (forall k, count_rows (w_supa scenario_world) = Ok k -> 3%nat = (k + length scored)%nat).
Proof.
  assert (H : etl_main scenario_env scenario_world = (Ok (3, 3)%nat, scenario_final))
    by (vm_compute; reflexivity).
  split; [exact H|]. exact (etl_success_writes scenario_env scenario_world 3 3 scenario_final H).
Defined.

(** C17: the batch etl.py writes is the merged frame of the sales file
    and the normalised weather frame, row for row, each row with the
    prediction of the chosen model (scored on that frame's features) in
    [sales_prediction]; it has at least one row per line of sales.csv, and
    exactly one when the weather dates are unique. *)
Theorem prepare_batch_rows env scored q :
  prepare_batch env = Ok (scored, q) ->
  exists sales temps w0 w1 X xgb lr c p,
    env_sales env = Some sales /\ get_data (env_weather env) = Ok temps /\
    weather_frame temps = Ok w0 /\ normalize_weather w0 = Ok w1 /\
    preprocessing (left_join sales (weather_keyed w1)) = Ok X /\
    env_xgb env = Some xgb /\ env_lr env = Some lr /\
    final_predictions xgb lr X (target (left_join sales (weather_keyed w1))) = Ok (c, p) /\
    map sc_row scored = left_join sales (weather_keyed w1) /\ map sc_prediction scored = p /\
    (length sales <= length scored)%nat /\
    (NoDup (map w_date w1) -> length scored = length sales).
Proof.
  intros (sales & temps & w0 & w1 & X & xgb & lr & c & p & script & Hs & Ht & Hw0 & Hw1 & HX & Hx & Hl
          & Hf & Ha & _) %prepare_batch_Ok.
  destruct (assign_predictions_Ok _ _ _ Ha) as [Hrow Hpred].
  exists sales, temps, w0, w1, X, xgb, lr, c, p. do 10 (split; [assumption|]).
  rewrite <- (length_map sc_row), Hrow. split; [apply length_left_join_ge|].
  intros Hnd. apply length_left_join_unique. unfold weather_keyed. rewrite map_map. exact Hnd.
Qed.

Lemma prepare_batch_rows_witness :
  prepare_batch scenario_env = Ok scenario_batch /\
  exists sales temps w0 w1 X xgb lr c p,
    env_sales scenario_env = Some sales /\ get_data (env_weather scenario_env) = Ok temps /\
    weather_frame temps = Ok w0 /\ normalize_weather w0 = Ok w1 /\
    preprocessing (left_join sales (weather_keyed w1)) = Ok X /\
    env_xgb scenario_env = Some xgb /\ env_lr scenario_env = Some lr /\
    final_predictions xgb lr X (target (left_join sales (weather_keyed w1))) = Ok (c, p) /\
    map sc_row scenario_batch.1 = left_join sales (weather_keyed w1) /\
    map sc_prediction scenario_batch.1 = p /\
    (length sales <= length scenario_batch.1)%nat /\
    (NoDup (map w_date w1) -> length scenario_batch.1 = length sales).
Proof.
  assert (H : prepare_batch scenario_env = Ok (scenario_batch.1, scenario_batch.2))
    by (vm_compute; reflexivity).
  split; [exact H|]. exact (prepare_batch_rows scenario_env _ _ H).
Defined.

(** C11: when the local database cannot be reached, the run raises at the
    local append (etl.py 155) and the backup database never receives the
    batch: its DDL ran, but the append of etl.py 158 is not reached.  The
    two sinks are not independent, contrary to spec section 7. *)
Theorem local_write_failure_skips_backup env (w : world (S := database scored_record)) scored q :
  env_local_engine env = true -> env_supa_engine env = true -> prepare_batch env = Ok (scored, q) ->
  db_reachable (w_local w) = false -> db_reachable (w_supa w) = true ->
  etl_main env w =
    (Err connection_error, mkWorld (w_local w) (mkDatabase true (Some (default [] (db_table (w_supa w)))))).
Proof.
  intros He Hs Hp Hl Hsu. rewrite etl_main_unfold, Hp by exact He. cbn [fst snd]. rewrite Hs.
  destruct w as [[rl tl] [rs ts]]; cbn in Hl, Hsu; subst rl rs. reflexivity.
Qed.

Lemma local_write_failure_skips_backup_witness :
  env_local_engine scenario_env = true /\ env_supa_engine scenario_env = true /\
  prepare_batch scenario_env = Ok scenario_batch /\
  db_reachable (w_local (mkWorld down_db fresh_db)) = false /\
  db_reachable (w_supa (mkWorld down_db fresh_db)) = true /\
  etl_main scenario_env (mkWorld down_db fresh_db) =
    (Err connection_error, mkWorld (w_local (mkWorld down_db fresh_db))
       (mkDatabase true (Some (default [] (db_table (w_supa (mkWorld down_db fresh_db))))))).
Proof.
  assert (H : prepare_batch scenario_env = Ok (scenario_batch.1, scenario_batch.2))
    by (vm_compute; reflexivity).
  do 2 (split; [reflexivity|]). split; [exact H|]. do 2 (split; [reflexivity|]).
  exact (local_write_failure_skips_backup scenario_env (mkWorld down_db fresh_db) _ _
           eq_refl eq_refl H eq_refl eq_refl).
Defined.

(** C12: when the backup database cannot be reached, or its engine was
    never created, the local database receives the batch and the run then
    raises at etl.py 158: the write error is not logged and skipped as the
    spec says, and the verification counts of etl.py 161-169 never run. *)
Theorem backup_failure_after_local_write env (w : world (S := database scored_record)) scored q :
  env_local_engine env = true -> prepare_batch env = Ok (scored, q) ->
  db_reachable (w_local w) = true ->
  env_supa_engine env = false \/ db_reachable (w_supa w) = false ->
  exists e, etl_main env w =
    (Err e, mkWorld (mkDatabase true (Some (default [] (db_table (w_local w)) ++ scored))) (w_supa w)).
Proof.
  intros He Hp Hl Hsu. rewrite etl_main_unfold, Hp by exact He. cbn [fst snd].
  destruct w as [[rl tl] [rs ts]]; cbn in Hl, Hsu; subst rl.
  destruct Hsu as [Hs|Hr]; [rewrite Hs|subst rs; destruct (env_supa_engine env)]; eexists; reflexivity.
Qed.

Lemma backup_failure_after_local_write_witness :
  env_local_engine scenario_env = true /\ prepare_batch scenario_env = Ok scenario_batch /\
  db_reachable (w_local (mkWorld fresh_db down_db)) = true /\
  (env_supa_engine scenario_env = false \/ db_reachable (w_supa (mkWorld fresh_db down_db)) = false) /\
  exists e, etl_main scenario_env (mkWorld fresh_db down_db) =
    (Err e, mkWorld (mkDatabase true (Some (default [] (db_table (w_local (mkWorld fresh_db down_db)))
                                             ++ scenario_batch.1)))
                    (w_supa (mkWorld fresh_db down_db))).
Proof.
  assert (H : prepare_batch scenario_env = Ok (scenario_batch.1, scenario_batch.2))
    by (vm_compute; reflexivity).
  split; [reflexivity|]. split; [exact H|]. split; [reflexivity|]. split; [right; reflexivity|].
  exact (backup_failure_after_local_write scenario_env (mkWorld fresh_db down_db) _ _
           eq_refl H eq_refl (or_intror eq_refl)).
Defined.

(** The scenario of the spec, run end to end: the weather frame gives
    the temperatures 20.5, 21.0 and 19.8, the first model is selected, the
    [sales_prediction] column is [12, 18, 14], and each database ends with
    the three scored rows. *)
Example spec_scenario_end_to_end :
  map (fun r => m_temperature (sc_row r)) scenario_batch.1 =
    [Some (205 # 10)%Q; Some (210 # 10)%Q; Some (198 # 10)%Q] /\
  map sc_prediction scenario_batch.1 = [12; 18; 14]%Q /\
  etl_main scenario_env scenario_world = (Ok (3, 3)%nat, scenario_final) /\
  db_table (w_local scenario_final) = Some scenario_batch.1 /\
  db_table (w_supa scenario_final) = Some scenario_batch.1.
Proof. repeat split; vm_compute; reflexivity. Qed.

End Etl.
